(** * MindMate backend: safety triage and response orchestration

    A shallow embedding of the backend modules [safety.py], [nlp.py],
    [llm_client.py], [db.py] and of the [/chat] handler of [main.py],
    followed by the properties of the triage pipeline proved of them.

    Conventions of the embedding.
    - A Python [str] is a [string] of ASCII characters: the classes [\s],
      [\w] and [\b] of [re], case folding under [re.IGNORECASE] and the
      methods [lower] and [strip] are those Python applies to ASCII text.
    - A Python [float] is a binary64 [float] of the primitive float library,
      so a comparison with [nan] is false as it is in Python.
    - A [dict] with a fixed set of keys is a record; the global dict
      [conversations] is a [gmap] from conversation ids to histories.
    - Code that may raise returns a [result]; code that also reads or
      updates a state runs in the monad [ST] over that state, and an
      exception leaves the updates made before it in place.
    - The services outside the repository (sentiment and generation back
      ends, the database file, the formatting of a float) are the fields
      of an [env]; the reading of the clock is an argument of the handler. *)

From Stdlib Require Import String Ascii List Bool Arith NArith ZArith Lia Floats.
From stdpp Require Import base option list gmap strings.

#[local] Set Warnings "-inexact-float".
#[local] Open Scope string_scope.

(* ===================================================================== *)
(** ** Python strings *)
(* ===================================================================== *)

Module PyStr.

Definition code (c : ascii) : N := N_of_ascii c.

Definition between (lo hi : N) (c : ascii) : bool :=
  ((lo <=? code c) && (code c <=? hi))%N.

Definition isupper_char (c : ascii) : bool := between 65 90 c.
Definition islower_char (c : ascii) : bool := between 97 122 c.
Definition isdigit_char (c : ascii) : bool := between 48 57 c.

(** [str.isspace] on one character: TAB, LF, VT, FF, CR, FS, GS, RS, US
    and the space. *)
Definition isspace_char (c : ascii) : bool :=
  between 9 13 c || between 28 32 c.

(** The class [\w] of [re]: letters, digits and the underscore. *)
Definition isword_char (c : ascii) : bool :=
  isupper_char c || islower_char c || isdigit_char c || (code c =? 95)%N.

Definition lower_char (c : ascii) : ascii :=
  if isupper_char c then ascii_of_N (code c + 32) else c.

(** [s.lower()] on ASCII text: the letters A to Z are mapped, every other
    character is left as it is. Python also maps letters outside ASCII
    (U+0130 to [i] followed by U+0307, U+212A to [k]); they are not in the
    strings of this embedding. *)
Fixpoint lower (s : string) : string :=
  match s with
  | EmptyString => EmptyString
  | String c s' => String (lower_char c) (lower s')
  end.

(** [m.startswith(w)] *)
Fixpoint startswith (w m : string) : bool :=
  match w, m with
  | EmptyString, _ => true
  | String _ _, EmptyString => false
  | String a w', String b m' => Ascii.eqb a b && startswith w' m'
  end.

(** [w in m] for two strings: [w] occurs in [m] as a substring. *)
Fixpoint str_in (w m : string) : bool :=
  startswith w m ||
  match m with
  | EmptyString => false
  | String _ m' => str_in w m'
  end.

Fixpoint lstrip (s : string) : string :=
  match s with
  | EmptyString => EmptyString
  | String c s' => if isspace_char c then lstrip s' else s
  end.

Fixpoint rstrip (s : string) : string :=
  match s with
  | EmptyString => EmptyString
  | String c s' =>
      match rstrip s' with
      | EmptyString => if isspace_char c then EmptyString else String c EmptyString
      | r => String c r
      end
  end.

(** [s.strip()] *)
Definition strip (s : string) : string := rstrip (lstrip s).

(** ["\n".join(parts)] *)
Definition nl : string := String "010"%char EmptyString.

Fixpoint join (sep : string) (parts : list string) : string :=
  match parts with
  | [] => EmptyString
  | [p] => p
  | p :: ps => p +:+ sep +:+ join sep ps
  end.

(** [l[-n:]] for a positive [n]: the last [n] elements, all of [l] when it
    is shorter. *)
Definition last_n {A} (n : nat) (l : list A) : list A :=
  skipn (length l - n) l.

(** The declarative reading of [w in m]. *)
Definition substring (w m : string) : Prop :=
  exists a b, m = a +:+ w +:+ b.

End PyStr.

(* ===================================================================== *)
(** ** The fragment of [re] used by the pattern library *)
(* ===================================================================== *)

Module Re.
Import PyStr.

Inductive regex : Type :=
| Eps
| Lit (c : ascii)          (* a literal character *)
| Any                      (* [.] *)
| Space                    (* [\s] *)
| WordB                    (* [\b] *)
| Seq (r1 r2 : regex)
| Alt (r1 r2 : regex)      (* [r1|r2] *)
| Star (r : regex).        (* [r*] *)

Definition Plus (r : regex) : regex := Seq r (Star r).
Definition Opt (r : regex) : regex := Alt r Eps.

(** *** [re.compile]: a recursive-descent parser for the pattern syntax *)

Definition special (c : ascii) : bool :=
  existsb (Ascii.eqb c)
    ["\"; "."; "("; ")"; "|"; "*"; "+"; "?"; "["; "]"; "{"; "}"; "^"; "$"]%char.

Definition postfix (r : regex) (s : list ascii) : regex * list ascii :=
  match s with
  | "*"%char :: s' => (Star r, s')
  | "+"%char :: s' => (Plus r, s')
  | "?"%char :: s' => (Opt r, s')
  | _ => (r, s)
  end.

Fixpoint parse_alt (fuel : nat) (s : list ascii) : option (regex * list ascii) :=
  match fuel with
  | O => None
  | S fuel =>
      match parse_branch fuel s with
      | Some (r, "|"%char :: s') =>
          match parse_alt fuel s' with
          | Some (r', s'') => Some (Alt r r', s'')
          | None => None
          end
      | other => other
      end
  end
with parse_branch (fuel : nat) (s : list ascii) : option (regex * list ascii) :=
  match fuel with
  | O => None
  | S fuel =>
      match s with
      | [] => Some (Eps, s)
      | "|"%char :: _ => Some (Eps, s)
      | ")"%char :: _ => Some (Eps, s)
      | _ =>
          match parse_atom fuel s with
          | Some (a, s') =>
              let '(a', s'') := postfix a s' in
              match parse_branch fuel s'' with
              | Some (Eps, s''') => Some (a', s''')
              | Some (r, s''') => Some (Seq a' r, s''')
              | None => None
              end
          | None => None
          end
      end
  end
with parse_atom (fuel : nat) (s : list ascii) : option (regex * list ascii) :=
  match fuel with
  | O => None
  | S fuel =>
      match s with
      | "\"%char :: "b"%char :: s' => Some (WordB, s')
      | "\"%char :: "s"%char :: s' => Some (Space, s')
      | "."%char :: s' => Some (Any, s')
      | "("%char :: "?"%char :: ":"%char :: s' =>
          match parse_alt fuel s' with
          | Some (r, ")"%char :: s'') => Some (r, s'')
          | _ => None
          end
      | c :: s' => if special c then None else Some (Lit c, s')
      | [] => None
      end
  end.

(** [re.compile(pattern, re.IGNORECASE)]; [None] stands for [re.error].
    Case is ignored by the matcher, see [Lit] in [rmatch]. *)
Definition compile (pattern : string) : option regex :=
  let s := list_ascii_of_string pattern in
  match parse_alt (3 * S (length s)) s with
  | Some (r, []) => Some r
  | _ => None
  end.

(** *** Matching *)

Definition isword_opt (c : option ascii) : bool :=
  match c with Some c => isword_char c | None => false end.

(** The iterations of [r*]: stop here, or match the body once more. An
    iteration that consumes nothing is not repeated, and [n] bounds the
    number of iterations that consume something. *)
Definition star_loop
    (body : option ascii -> list ascii -> (option ascii -> list ascii -> bool) -> bool)
    (k : option ascii -> list ascii -> bool)
  : nat -> option ascii -> list ascii -> bool :=
  fix loop (n : nat) (prev : option ascii) (s : list ascii) : bool :=
    k prev s ||
    match n with
    | O => false
    | S n =>
        body prev s
          (fun prev' s' => (length s' <? length s)%nat && loop n prev' s')
    end.

(** [rmatch r prev s k]: [r] matches a prefix of [s], where [prev] is the
    character before [s], and [k] accepts what follows the match. A literal
    matches up to the case of the letters A to Z, and [\s], [\w] and [\b]
    are the ASCII classes: this is [re] under [re.IGNORECASE] on ASCII text.
    On other text [re] folds more (U+0130, U+212A, U+017F) and its classes
    are those of Unicode. *)
Fixpoint rmatch (r : regex) (prev : option ascii) (s : list ascii)
    (k : option ascii -> list ascii -> bool) {struct r} : bool :=
  match r with
  | Eps => k prev s
  | Lit c =>
      match s with
      | x :: s' => Ascii.eqb (lower_char x) (lower_char c) && k (Some x) s'
      | [] => false
      end
  | Any =>
      match s with
      | x :: s' => negb (Ascii.eqb x "010"%char) && k (Some x) s'
      | [] => false
      end
  | Space =>
      match s with
      | x :: s' => isspace_char x && k (Some x) s'
      | [] => false
      end
  | WordB => xorb (isword_opt prev) (isword_opt (head s)) && k prev s
  | Seq r1 r2 => rmatch r1 prev s (fun prev' s' => rmatch r2 prev' s' k)
  | Alt r1 r2 => rmatch r1 prev s k || rmatch r2 prev s k
  | Star r1 => star_loop (rmatch r1) k (length s) prev s
  end.

Fixpoint search_from (r : regex) (prev : option ascii) (s : list ascii) : bool :=
  rmatch r prev s (fun _ _ => true) ||
  match s with
  | [] => false
  | x :: s' => search_from r (Some x) s'
  end.

(** [pattern.search(message)], as a truth value. *)
Definition search (r : regex) (message : string) : bool :=
  search_from r None (list_ascii_of_string message).

End Re.


(* ===================================================================== *)
(** ** Python values, exceptions and the state of the process *)
(* ===================================================================== *)

Module Py.

(** The exceptions that the modelled code can meet. [HTTPException] is the
    one FastAPI turns into an error response. *)
Inductive exn : Type :=
| TypeError
| AttributeError
| ServiceError (detail : string)
| HTTPException (status_code : nat) (detail : string).

Inductive result (A : Type) : Type :=
| Ok (a : A)
| Raise (e : exn).
Arguments Ok {A} a.
Arguments Raise {A} e.

#[export] Instance result_ret : MRet result := fun A a => Ok a.

#[export] Instance result_bind : MBind result := fun A B f r =>
  match r with
  | Ok a => f a
  | Raise e => Raise e
  end.

(** [try: body except Exception: handler] for code without state. *)
Definition rtry {A} (body : result A) (handler : exn -> result A) : result A :=
  match body with
  | Ok a => Ok a
  | Raise e => handler e
  end.

(** The values a caller can pass where a [str] is expected. *)
Inductive pyobj : Type :=
| PyNone
| PyBool (b : bool)
| PyInt (z : Z)
| PyFloat (f : float)
| PyBytes (b : string)
| PyStr (s : string).

(** [pattern.search(message)]: a [str] pattern accepts a [str] only. *)
Definition py_search (r : Re.regex) (message : pyobj) : result bool :=
  match message with
  | PyStr s => Ok (Re.search r s)
  | _ => Raise TypeError
  end.

(** [message.lower()], for the tests [phrase in message_lower] that follow
    it: [bytes] has a method [lower], and the first test of a [str] phrase
    in its result raises [TypeError]; the other values have no [lower]. *)
Definition py_lower (message : pyobj) : result string :=
  match message with
  | PyStr s => Ok (PyStr.lower s)
  | PyBytes _ => Raise TypeError
  | _ => Raise AttributeError
  end.

End Py.
Export Py.


(* ===================================================================== *)
(** ** safety.py *)
(* ===================================================================== *)

Module Safety.
Import PyStr Re.

(** *** [CrisisDetector.__init__] *)

Definition crisis_patterns : list string := [
  (* Suicide ideation *)
  "\b(?:kill\s+myself|suicide|end\s+my\s+life|take\s+my\s+life|want\s+to\s+die)\b";
  "\b(?:suicidal|end\s+it\s+all|not\s+worth\s+living|better\s+off\s+dead)\b";
  (* Self-harm *)
  "\b(?:cut\s+myself|hurt\s+myself|self\s*harm|cutting|burning\s+myself)\b";
  "\b(?:razor|blade|pills\s+to\s+die|overdose)\b";
  (* Immediate danger *)
  "\b(?:going\s+to\s+kill|planning\s+to\s+die|tonight\s+.*\s+die|ready\s+to\s+die)\b";
  "\b(?:gun|rope|bridge|jump\s+off|pills\s+.*\s+die)\b";
  (* Harm to others *)
  "\b(?:kill\s+(?:someone|them|him|her)|hurt\s+(?:someone|people|others))\b";
  "\b(?:planning\s+to\s+hurt|going\s+to\s+hurt|want\s+to\s+hurt\s+(?:someone|others))\b"
].

Definition compiled_patterns : list regex := omap compile crisis_patterns.

Definition high_risk_phrases : list string := [
  "can't go on"; "nothing to live for"; "everyone would be better off without me";
  "final goodbye"; "last time"; "saying goodbye"; "won't be here tomorrow"
].

(** *** [CrisisDetector._contextual_crisis_check] *)

Definition crisis_combinations : list (list string) := [
  ["pain"; "can't"; "anymore"];
  ["tired"; "fighting"; "give up"];
  ["no one"; "cares"; "alone"];
  ["pointless"; "life"; "meaningless"]
].

Definition _contextual_crisis_check (message : string) : bool :=
  existsb (fun combination => forallb (fun word => str_in word message) combination)
    crisis_combinations.

(** *** [CrisisDetector.detect_crisis] *)

(** The loop over the compiled patterns, with its early [return True]. *)
Fixpoint any_pattern (patterns : list regex) (message : pyobj) : result bool :=
  match patterns with
  | [] => Ok false
  | pattern :: rest =>
      found ← py_search pattern message;
      if (found : bool) then Ok true else any_pattern rest message
  end.

Definition detect_crisis_body (message : pyobj) : result bool :=
  found ← any_pattern compiled_patterns message;
  if (found : bool) then Ok true else
  message_lower ← py_lower message;
  if existsb (fun phrase => str_in phrase message_lower) high_risk_phrases
  then Ok true
  else if _contextual_crisis_check message_lower then Ok true
  else Ok false.

Definition detect_crisis (message : pyobj) : result bool :=
  rtry (detect_crisis_body message) (fun _ => Ok false).

(** What [detect_crisis] computes on a [str]. *)
Definition detect_str (message : string) : bool :=
  existsb (fun pattern => search pattern message) compiled_patterns
  || existsb (fun phrase => str_in phrase (lower message)) high_risk_phrases
  || _contextual_crisis_check (lower message).

(** *** [get_crisis_response] *)

Definition get_crisis_response : string :=
"I'm very concerned about what you've shared with me. Your safety is the most important thing right now.

Please reach out for immediate help:

🚨 **If you're in immediate danger, call emergency services (911) right away.**

📞 **Crisis Support:**
- National Suicide Prevention Lifeline: 988
- Crisis Text Line: Text HOME to 741741
- National Domestic Violence Hotline: 1-800-799-7233

👥 **Please contact a trusted person in your life right now** - a friend, family member, counselor, or healthcare provider.

You don't have to go through this alone. Professional counselors are trained to help and want to support you through this difficult time.

I care about your wellbeing, but I'm not equipped to provide the immediate professional help you need right now. Please reach out to one of these resources.".

End Safety.

(** *** [validate_message_safety] *)

Module SafetyValidation.
Import PyStr Re.

(** The dict that [validate_message_safety] returns. *)
Record t : Type := {
  safe : bool;
  crisis_detected : bool;
  risk_level : string;
  concerns : list string
}.

(** [result["concerns"].append(concern)] *)
Definition add_concern (concern : string) (r : t) : t :=
  {| safe := safe r;
     crisis_detected := crisis_detected r;
     risk_level := risk_level r;
     concerns := (concerns r ++ [concern])%list |}.

(** [len(message)] *)
Definition py_len (message : pyobj) : result nat :=
  match message with
  | PyStr s => Ok (String.length s)
  | PyBytes b => Ok (String.length b)
  | _ => Raise TypeError
  end.

Definition inappropriate_patterns : list string := [
  "\b(?:spam|advertisement|buy\s+now|click\s+here)\b";
  "\b(?:hate|racist|discrimination)\b"
].

(** What [re.search(pattern, message, re.IGNORECASE)] compiles. *)
Definition compiled_inappropriate : list regex := omap compile inappropriate_patterns.

Definition validate_message_safety (message : pyobj) : result t :=
  let result :=
    {| safe := true; crisis_detected := false; risk_level := "low"; concerns := [] |} in
  (* Crisis detection *)
  crisis ← Safety.detect_crisis message;
  let result :=
    if (crisis : bool)
    then add_concern "Crisis indicators detected"
           {| safe := false; crisis_detected := true; risk_level := "high";
              concerns := concerns result |}
    else result in
  (* Check message length (prevent spam/abuse) *)
  n ← py_len message;
  let result :=
    if (2000 <? n)%nat then add_concern "Message too long" result else result in
  (* Check for inappropriate content (basic): the loop stops at the first
     pattern that is found *)
  inappropriate ← Safety.any_pattern compiled_inappropriate message;
  let result :=
    if (inappropriate : bool)
    then add_concern "Potentially inappropriate content" result
    else result in
  Ok result.

End SafetyValidation.


(* ===================================================================== *)
(** ** Shared data and the monad of the request path *)
(* ===================================================================== *)

(** The sentiment dict: [{"provider", "score", "magnitude", "label",
    "confidence"}]. *)
Record SentimentResult : Type := {
  provider : string;
  score : float;
  magnitude : float;
  label : string;
  confidence : float
}.

(** An entry of a conversation history: [{"role", "content", "timestamp"}]. *)
Module Msg.
Record t : Type := { role : string; content : string; timestamp : string }.
End Msg.

(** The calls that leave the process, in the order they are made. *)
Inductive call : Type :=
| GoogleAnalyze (text : string)
| HfPipeline (text : string)
| OpenAIChat (system context : string)
| AnthropicMessages (prompt : string)
| GeminiGenerate (prompt : string)
| DbInsert (conversation_id : string) (sentiment : SentimentResult)
    (crisis_detected : bool) (severity : string).

(** The services outside the repository. A client that was not initialised
    is [None]; a call that raises, times out or returns a malformed payload
    answers [None]. *)
Record env : Type := {
  google_client : option (string -> option (float * float));
  hf_pipeline : option (string -> option (list (string * float)));
  openai_client : option (string -> string -> option string);
  anthropic_client : option (string -> option string);
  gemini_client : option (string -> option string);
  logging_enabled : bool;          (* ENABLE_LOGGING is "true" *)
  db_available : bool;             (* the sqlite file can be written *)
  format_2f : float -> string      (* [f"{x:.2f}"] *)
}.

(** Code that may raise and that reads or updates a state [S]. *)
Definition ST (S A : Type) : Type := S -> result A * S.

#[export] Instance ST_ret {S} : MRet (ST S) := fun A a st => (Ok a, st).

#[export] Instance ST_bind {S} : MBind (ST S) := fun A B f c st =>
  match c st with
  | (Ok a, st') => f a st'
  | (Raise e, st') => (Raise e, st')
  end.

Definition raise {S A} (e : exn) : ST S A := fun st => (Raise e, st).

Definition lift {S A} (r : result A) : ST S A := fun st => (r, st).

(** [try: body except Exception as e: handler]; what [body] did to the
    state before it raised stays done. *)
Definition try_except {S A} (body : ST S A) (handler : exn -> ST S A) : ST S A :=
  fun st =>
    match body st with
    | (Ok a, st') => (Ok a, st')
    | (Raise e, st') => handler e st'
    end.

(** The components other than the handler of main.py see the outside world
    only: their state is the list of calls made so far. *)
Abbreviation IO := (ST (list call)).

(** The state of the process that serves [/chat]. *)
Record world : Type := {
  conversations : gmap string (list Msg.t);   (* the global dict of main.py *)
  calls : list call
}.

Abbreviation M := (ST world).

(** A component called from the handler. *)
Definition run_io {A} (c : IO A) : M A := fun w =>
  let '(r, t) := c (calls w) in
  (r, {| conversations := conversations w; calls := t |}).

Definition emit (c : call) : IO unit := fun t => (Ok tt, (t ++ [c])%list).

(** A call to an outside service with the given outcome. *)
Definition call_service {A} (c : call) (outcome : option A) : IO A :=
  _ ← emit c;
  match outcome with
  | Some a => mret a
  | None => raise (ServiceError "provider call failed")
  end.

(** [client.method(...)] on a client attribute that may be [None]. *)
Definition call_client {F A} (client : option F) (c : call) (run : F -> option A) : IO A :=
  match client with
  | Some f => call_service c (run f)
  | None => raise AttributeError
  end.

(* ===================================================================== *)
(** ** nlp.py *)
(* ===================================================================== *)

Module Nlp.
Import PyStr.

(** *** [SentimentAnalyzer._score_to_label] *)
Definition _score_to_label (score : float) : string :=
  if (0.1 <? score)%float then "positive"
  else if (score <? -0.1)%float then "negative"
  else "neutral".

(** *** [SentimentAnalyzer._basic_sentiment] *)

Definition positive_words : list string := [
  "good"; "great"; "happy"; "joy"; "love"; "wonderful"; "amazing";
  "excellent"; "fantastic"; "perfect"; "awesome"; "brilliant"
].

Definition negative_words : list string := [
  "bad"; "terrible"; "sad"; "angry"; "hate"; "awful"; "horrible";
  "depressed"; "anxious"; "worried"; "scared"; "lonely"; "hopeless";
  "suicide"; "kill"; "die"; "hurt"; "pain"
].

(** [sum(1 for word in words if word in text_lower)] *)
Fixpoint count_words (words : list string) (text_lower : string) : nat :=
  match words with
  | [] => 0
  | word :: rest =>
      ((if str_in word text_lower then 1 else 0) + count_words rest text_lower)%nat
  end.

Definition _basic_sentiment (text : string) : SentimentResult :=
  let text_lower := lower text in
  let positive_count := count_words positive_words text_lower in
  let negative_count := count_words negative_words text_lower in
  let '(score, label) :=
    if (positive_count <? negative_count)%nat then ((-0.7)%float, "negative")
    else if (negative_count <? positive_count)%nat then (0.7%float, "positive")
    else (0.0%float, "neutral") in
  {| provider := "basic";
     score := score;
     magnitude := abs score;
     label := label;
     confidence := 0.6 |}.

(** [min(a, b)] and [max(a, b)] on floats, as the builtins compute them. *)
Definition py_min (a b : float) : float := if (b <? a)%float then b else a.
Definition py_max (a b : float) : float := if (a <? b)%float then b else a.

(** [next((r["score"] for r in results if r["label"] == name), 0.5)] *)
Fixpoint next_score (name : string) (results : list (string * float)) : float :=
  match results with
  | [] => 0.5%float
  | (l, s) :: rest => if String.eqb l name then s else next_score name rest
  end.

(** *** [SentimentAnalyzer._analyze_with_huggingface] *)
Definition _analyze_with_huggingface (e : env) (text : string) : IO SentimentResult :=
  try_except
    (results ← call_client (hf_pipeline e) (HfPipeline text) (fun f => f text);
     let positive_score := next_score "POSITIVE" results in
     let negative_score := next_score "NEGATIVE" results in
     let score := (positive_score - negative_score)%float in
     let confidence := py_max positive_score negative_score in
     mret {| provider := "huggingface";
             score := score;
             magnitude := confidence;
             label := _score_to_label score;
             confidence := confidence |})
    (fun _ => mret (_basic_sentiment text)).

(** *** [SentimentAnalyzer._analyze_with_google] *)
Definition _analyze_with_google (e : env) (text : string) : IO SentimentResult :=
  try_except
    (sentiment ← call_client (google_client e) (GoogleAnalyze text) (fun f => f text);
     let '(sentiment_score, sentiment_magnitude) := (sentiment : float * float) in
     mret {| provider := "google";
             score := sentiment_score;
             magnitude := sentiment_magnitude;
             label := _score_to_label sentiment_score;
             confidence := py_min sentiment_magnitude 1.0 |})
    (fun _ => _analyze_with_huggingface e text).

(** *** [SentimentAnalyzer.analyze] *)
Definition analyze (e : env) (text : string) : IO SentimentResult :=
  try_except
    (match google_client e, hf_pipeline e with
     | Some _, _ => _analyze_with_google e text
     | None, Some _ => _analyze_with_huggingface e text
     | None, None => mret (_basic_sentiment text)    (* Basic fallback *)
     end)
    (fun _ => mret (_basic_sentiment text)).

End Nlp.

(* ===================================================================== *)
(** ** llm_client.py *)
(* ===================================================================== *)

Module Llm.
Import PyStr.

Definition SYSTEM_PROMPT : string :=
"You are an empathetic and non-judgmental mental-wellness assistant. Your goal is to provide emotional support and practical coping suggestions, NOT medical, diagnostic, or therapeutic advice. Always:

1. Validate the user's feelings.
2. Use short, calm sentences.
3. Offer 1–2 practical coping steps (breathing, grounding).
4. If user expresses self-harm, suicidal intent, or immediate danger, do NOT attempt to counsel. Instead:
   - Express concern and seriousness,
   - Provide clear, immediate instructions: contact local emergency services or a crisis hotline, and encourage contacting a trusted person,
   - Provide placeholders for local emergency numbers and recommend professional help.
5. Always end by asking a gentle follow-up question (e.g., 'Would you like some breathing exercises now?').
6. Never provide medical diagnoses, prescribe medication, or claim to be a medical professional.

Keep responses under 120 words and always be warm, understanding, and supportive.".

(** *** [LLMClient._build_context] *)
Definition _build_context (e : env) (current_message : string)
    (conversation_history : list Msg.t) (sentiment : SentimentResult) : string :=
  let history_parts :=
    match conversation_history with
    | [] => []
    | _ =>
        "Recent conversation:" ::
        map (fun msg =>
               let role := if String.eqb (Msg.role msg) "user" then "User" else "Assistant" in
               role +:+ ": " +:+ Msg.content msg)
            (last_n 4 conversation_history)          (* Last 4 messages *)
    end in
  let message_parts := [
    nl +:+ "Current user message: " +:+ current_message;
    "Detected sentiment: " +:+ label sentiment +:+ " (confidence: " +:+
      format_2f e (confidence sentiment) +:+ ")"
  ] in
  let guidance_parts :=
    if (score sentiment <? -0.3)%float
    then [nl +:+ "Note: User seems to be experiencing negative emotions. Provide extra validation and gentle coping suggestions."]
    else [] in
  let closing_parts :=
    [nl +:+ "Provide a supportive, empathetic response following the system guidelines:"] in
  join nl (history_parts ++ message_parts ++ guidance_parts ++ closing_parts)%list.

(** *** The three generation back ends: each logs its failure and raises
    it again. *)

Definition _generate_with_openai (e : env) (context : string) : IO string :=
  try_except
    (text ← call_client (openai_client e) (OpenAIChat SYSTEM_PROMPT context)
              (fun f => f SYSTEM_PROMPT context);
     mret (strip text))
    (fun err => raise err).

Definition _generate_with_anthropic (e : env) (context : string) : IO string :=
  let prompt := SYSTEM_PROMPT +:+ nl +:+ nl +:+ context in
  try_except
    (text ← call_client (anthropic_client e) (AnthropicMessages prompt)
              (fun f => f prompt);
     mret (strip text))
    (fun err => raise err).

Definition _generate_with_gemini (e : env) (context : string) : IO string :=
  try_except
    (let full_prompt := SYSTEM_PROMPT +:+ nl +:+ nl +:+ context in
     text ← call_client (gemini_client e) (GeminiGenerate full_prompt)
              (fun f => f full_prompt);
     mret (strip text))
    (fun err => raise err).

(** *** [LLMClient._fallback_response] *)

Definition responses : gmap string string :=
  <["negative" := "I hear that you're going through a difficult time right now. Your feelings are completely valid. Sometimes when we're struggling, it can help to take slow, deep breaths - in for 4 counts, hold for 4, out for 4. Would you like to talk about what's making you feel this way?"]>
  (<["positive" := "I'm glad to hear you're feeling positive! It's wonderful that you're taking time to check in with yourself. Maintaining good mental health habits, like the ones that brought you here, is really important. What's been going well for you lately?"]>
  (<["neutral" := "Thank you for sharing with me. I'm here to listen and support you. Sometimes it helps to just talk through what's on your mind. Taking a moment to breathe deeply can also be grounding. What would be most helpful for you right now?"]>
  ∅)).

Definition _fallback_response (sentiment : SentimentResult) : string :=
  let sentiment_label := label sentiment in
  default (default "" (responses !! "neutral")) (responses !! sentiment_label).

(** *** [LLMClient.generate_response] *)
Definition generate_response (e : env) (current_message : string)
    (conversation_history : list Msg.t) (sentiment : SentimentResult) : IO string :=
  try_except
    (let context := _build_context e current_message conversation_history sentiment in
     (* Try clients in order of preference *)
     match openai_client e, anthropic_client e, gemini_client e with
     | Some _, _, _ => _generate_with_openai e context
     | None, Some _, _ => _generate_with_anthropic e context
     | None, None, Some _ => _generate_with_gemini e context
     | None, None, None => mret (_fallback_response sentiment)
     end)
    (fun _ => mret (_fallback_response sentiment)).

End Llm.

(* ===================================================================== *)
(** ** db.py *)
(* ===================================================================== *)

Module Db.

(** [ConversationLogger.log_conversation]: the insert runs inside a [try]
    whose handler only logs, and [initialize] does the same. *)
Definition log_conversation (e : env) (conversation_id : string)
    (sentiment : SentimentResult) (crisis_detected : bool) (severity : string) : IO unit :=
  try_except
    (call_service (DbInsert conversation_id sentiment crisis_detected severity)
       (if db_available e then Some tt else None))
    (fun _ => mret tt).

End Db.

(* ===================================================================== *)
(** ** main.py *)
(* ===================================================================== *)

Module ChatRequest.
Record t : Type := {
  message : string;
  conversation_id : option string;
  user_id : option string
}.
End ChatRequest.

Module ChatResponse.
Record t : Type := {
  response : string;
  sentiment : SentimentResult;
  crisis_detected : bool;
  timestamp : string;
  conversation_id : string;
  resources : option (list string)
}.
End ChatResponse.

Module Main.
Import PyStr.

(** The module-level components [sentiment_analyzer], [crisis_detector],
    [llm_client] and [logger_db] that the handler calls; the tests of the
    repository replace them by mocks. *)
Record services : Type := {
  analyze : string -> IO SentimentResult;
  detect_crisis : pyobj -> IO bool;
  generate_response : string -> list Msg.t -> SentimentResult -> IO string;
  logger_db : option (string -> SentimentResult -> bool -> string -> IO unit)
}.

(** The components as main.py initialises them. *)
Definition production (e : env) : services := {|
  analyze := Nlp.analyze e;
  detect_crisis := fun message => lift (Safety.detect_crisis message);
  generate_response := Llm.generate_response e;
  logger_db := if logging_enabled e then Some (Db.log_conversation e) else None
|}.

(** *** The conversation store.

    [conversation_history] is a reference to the list stored under
    [conversation_id] (after the slice too, which is stored back), so an
    [append] to it updates the store. *)

(** [if conversation_id not in conversations: conversations[conversation_id] = []]
    followed by [conversations[conversation_id]]. *)
Definition get_or_create (conversation_id : string) : M (list Msg.t) := fun w =>
  match conversations w !! conversation_id with
  | Some history => (Ok history, w)
  | None =>
      (Ok [], {| conversations := <[conversation_id := []]> (conversations w);
                 calls := calls w |})
  end.

(** [conversations[conversation_id] = history] *)
Definition store (conversation_id : string) (history : list Msg.t) : M (list Msg.t) :=
  fun w =>
    (Ok history, {| conversations := <[conversation_id := history]> (conversations w);
                    calls := calls w |}).

(** [conversation_history.append(entry)] *)
Definition append (conversation_id : string) (history : list Msg.t) (entry : Msg.t)
  : M (list Msg.t) :=
  store conversation_id (history ++ [entry])%list.

Definition crisis_resources : list string := [
  "National Suicide Prevention Lifeline: 988";
  "Crisis Text Line: Text HOME to 741741";
  "Emergency Services: 911";
  "Find local mental health resources at SAMHSA.gov"
].

Definition general_resources : list string := [
  "National Alliance on Mental Illness (NAMI): nami.org";
  "Mental Health America: mhanational.org";
  "Psychology Today therapist finder"
].

(** [request.conversation_id or f"conv_{timestamp}"] *)
Definition conversation_id_of (request : ChatRequest.t) (timestamp : string) : string :=
  match ChatRequest.conversation_id request with
  | Some id => if String.eqb id "" then "conv_" +:+ timestamp else id
  | None => "conv_" +:+ timestamp
  end.

(** The first statements of the handler: the user message is added to the
    history, which is then cut to its last 6 entries. *)
Definition record_user_message (conversation_id timestamp : string)
    (request : ChatRequest.t) : M (list Msg.t) :=
  conversation_history ← get_or_create conversation_id;
  conversation_history ←
    append conversation_id conversation_history
      {| Msg.role := "user";
         Msg.content := ChatRequest.message request;
         Msg.timestamp := timestamp |};
  (* Keep only last 6 messages (3 exchanges) to manage context *)
  if (6 <? length conversation_history)%nat
  then store conversation_id (last_n 6 conversation_history)
  else mret conversation_history.

(** *** [chat], the handler of [POST /chat]; [now] is the reading of the
    clock at its first statement. *)
Definition chat (sv : services) (now : string) (request : ChatRequest.t)
  : M ChatResponse.t :=
  try_except
    (let timestamp := now in
     let conversation_id := conversation_id_of request timestamp in
     conversation_history ← record_user_message conversation_id timestamp request;
     (* Analyze sentiment *)
     sentiment ← run_io (analyze sv (ChatRequest.message request));
     (* Check for crisis *)
     crisis_detected ← run_io (detect_crisis sv (PyStr (ChatRequest.message request)));
     if (crisis_detected : bool) then
       (* Return crisis response immediately *)
       let response_text := Safety.get_crisis_response in
       let resources := crisis_resources in
       _ ← match logger_db sv with
           | Some log_conversation =>
               run_io (log_conversation conversation_id sentiment true "high")
           | None => mret tt
           end;
       mret {| ChatResponse.response := response_text;
               ChatResponse.sentiment := sentiment;
               ChatResponse.crisis_detected := true;
               ChatResponse.timestamp := timestamp;
               ChatResponse.conversation_id := conversation_id;
               ChatResponse.resources := Some resources |}
     else
       (* Generate empathetic response using LLM *)
       let recent_messages := last_n 3 conversation_history in
       response_text ←
         run_io (generate_response sv (ChatRequest.message request)
                   recent_messages sentiment);
       (* Add assistant response to history *)
       _ ← append conversation_id conversation_history
             {| Msg.role := "assistant";
                Msg.content := response_text;
                Msg.timestamp := timestamp |};
       _ ← match logger_db sv with
           | Some log_conversation =>
               let severity :=
                 if (score sentiment <? -0.5)%float then "medium" else "low" in
               run_io (log_conversation conversation_id sentiment false severity)
           | None => mret tt
           end;
       let resources := general_resources in
       mret {| ChatResponse.response := response_text;
               ChatResponse.sentiment := sentiment;
               ChatResponse.crisis_detected := false;
               ChatResponse.timestamp := timestamp;
               ChatResponse.conversation_id := conversation_id;
               ChatResponse.resources := Some resources |})
    (fun _ => raise (HTTPException 500 "Internal server error")).

(** [GET /conversations/{conversation_id}] *)
Definition get_conversation (conversation_id : string) : M (list Msg.t) := fun w =>
  match conversations w !! conversation_id with
  | Some history => (Ok history, w)
  | None => (Raise (HTTPException 404 "Conversation not found"), w)
  end.

(** [DELETE /conversations/{conversation_id}] *)
Definition clear_conversation (conversation_id : string) : M unit := fun w =>
  match conversations w !! conversation_id with
  | Some _ =>
      (Ok tt, {| conversations := delete conversation_id (conversations w);
                 calls := calls w |})
  | None => (Raise (HTTPException 404 "Conversation not found"), w)
  end.

End Main.


(* ===================================================================== *)
(** ** frontend/utils/helpers.py *)
(* ===================================================================== *)

Module Helpers.
Import PyStr.

(** *** [format_sentiment_score] *)
Definition format_sentiment_score (score : float) : string * string :=
  if (0.1 <? score)%float then ("😊 Positive", "#4CAF50")
  else if (score <? -0.1)%float then ("😔 Negative", "#f44336")
  else ("😐 Neutral", "#757575").

(** *** [get_crisis_keywords] *)
Definition get_crisis_keywords : list string := [
  "suicide"; "kill myself"; "end my life"; "want to die";
  "hurt myself"; "cut myself"; "self harm"; "overdose";
  "not worth living"; "better off dead"; "end it all"
].

(** *** [contains_crisis_keywords] *)
Definition contains_crisis_keywords (message : string) : bool :=
  let message_lower := lower message in
  let crisis_keywords := get_crisis_keywords in
  existsb (fun keyword => str_in keyword message_lower) crisis_keywords.

End Helpers.


(* ===================================================================== *)
(** ** Vocabulary of the statements *)
(* ===================================================================== *)

(** *** What a pattern matches

    [matches r prev s prev' s']: the pattern [r] matches the characters
    that [s] has before its suffix [s']; [prev] is the character before [s]
    and [prev'] the one before [s']. *)
Inductive matches : Re.regex -> option ascii -> list ascii -> option ascii -> list ascii -> Prop :=
| matches_eps prev s :
    matches Re.Eps prev s prev s
| matches_lit c x prev s :
    PyStr.lower_char x = PyStr.lower_char c ->
    matches (Re.Lit c) prev (x :: s) (Some x) s
| matches_any x prev s :
    x <> "010"%char ->
    matches Re.Any prev (x :: s) (Some x) s
| matches_space x prev s :
    PyStr.isspace_char x = true ->
    matches Re.Space prev (x :: s) (Some x) s
| matches_wordb prev s :
    Re.isword_opt prev <> Re.isword_opt (head s) ->
    matches Re.WordB prev s prev s
| matches_seq r1 r2 prev s prev1 s1 prev2 s2 :
    matches r1 prev s prev1 s1 ->
    matches r2 prev1 s1 prev2 s2 ->
    matches (Re.Seq r1 r2) prev s prev2 s2
| matches_alt_l r1 r2 prev s prev' s' :
    matches r1 prev s prev' s' ->
    matches (Re.Alt r1 r2) prev s prev' s'
| matches_alt_r r1 r2 prev s prev' s' :
    matches r2 prev s prev' s' ->
    matches (Re.Alt r1 r2) prev s prev' s'
| matches_star_stop r prev s :
    matches (Re.Star r) prev s prev s
| matches_star_more r prev s prev1 s1 prev2 s2 :
    matches r prev s prev1 s1 ->
    matches (Re.Star r) prev1 s1 prev2 s2 ->
    matches (Re.Star r) prev s prev2 s2.

(** The pattern matches somewhere in the text. *)
Definition occurs (r : Re.regex) (text : list ascii) : Prop :=
  exists before rest prev' s',
    text = (before ++ rest)%list /\ matches r (last before) rest prev' s'.

(** *** Patterns written out, to read the result of [Re.compile] *)

Fixpoint cat (parts : list Re.regex) : Re.regex :=
  match parts with
  | [] => Re.Eps
  | [r] => r
  | r :: rest => Re.Seq r (cat rest)
  end.

Fixpoint alt (branches : list Re.regex) : Re.regex :=
  match branches with
  | [] => Re.Eps
  | [r] => r
  | r :: rest => Re.Alt r (alt rest)
  end.

Definition text (word : string) : list Re.regex :=
  map Re.Lit (list_ascii_of_string word).

(** Words separated by [\s+]. *)
Fixpoint spaced (words : list string) : list Re.regex :=
  match words with
  | [] => []
  | [word] => text word
  | word :: rest => (text word ++ [Re.Plus Re.Space] ++ spaced rest)%list
  end.

Definition phrase (words : list string) : Re.regex := cat (spaced words).

(** [\b(?:...|...)\b] *)
Definition whole_words (branches : list Re.regex) : Re.regex :=
  Re.Seq Re.WordB (Re.Seq (alt branches) Re.WordB).

(** The calls to a generation back end among the calls made. *)
Definition is_llm_call (c : call) : bool :=
  match c with
  | OpenAIChat _ _ | AnthropicMessages _ | GeminiGenerate _ => true
  | _ => false
  end.

Definition llm_calls (t : list call) : list call := List.filter is_llm_call t.

(** A back end that is not configured, or whose call on [x] fails. *)
Definition unavailable {A B} (client : option (A -> option B)) (x : A) : Prop :=
  match client with
  | None => True
  | Some f => f x = None
  end.

(** The words of a list that occur in a text as substrings, in the order of
    the list: what the lexicon scorer counts. *)
Inductive occurring (text : string) : list string -> list string -> Prop :=
| occurring_nil :
    occurring text [] []
| occurring_found word words found :
    PyStr.substring word text ->
    occurring text words found ->
    occurring text (word :: words) (word :: found)
| occurring_absent word words found :
    ~ PyStr.substring word text ->
    occurring text words found ->
    occurring text (word :: words) found.

(** A message of ASCII characters only. On such a message [PyStr.lower] is
    [str.lower] and the matcher of [Re] is [re] under [re.IGNORECASE]; on
    other characters Python folds more than the letters A to Z (U+0130 and
    U+212A become [i] and [k] under [re.IGNORECASE], U+0130 becomes [i]
    followed by U+0307 under [str.lower]), so what is proved by comparing
    the two foldings is stated of ASCII messages. *)
Definition is_ascii (message : string) : bool :=
  forallb (fun c => (PyStr.code c <? 128)%N) (list_ascii_of_string message).

(** The handler with another reply generator in place of [llm_client]. *)
Definition with_generate
    (g : string -> list Msg.t -> SentimentResult -> IO string)
    (sv : Main.services) : Main.services :=
  {| Main.analyze := Main.analyze sv;
     Main.detect_crisis := Main.detect_crisis sv;
     Main.generate_response := g;
     Main.logger_db := Main.logger_db sv |}.

(** The handler with another sentiment analyzer, as the tests of the
    repository patch it. *)
Definition with_analyze (a : string -> IO SentimentResult) (sv : Main.services)
  : Main.services :=
  {| Main.analyze := a;
     Main.detect_crisis := Main.detect_crisis sv;
     Main.generate_response := Main.generate_response sv;
     Main.logger_db := Main.logger_db sv |}.

(** The user entry that a request adds to its conversation. *)
Definition user_entry (now : string) (request : ChatRequest.t) : Msg.t :=
  {| Msg.role := "user";
     Msg.content := ChatRequest.message request;
     Msg.timestamp := now |}.

Definition assistant_entry (now : string) (response_text : string) : Msg.t :=
  {| Msg.role := "assistant"; Msg.content := response_text; Msg.timestamp := now |}.

(** The stored window of a conversation, empty when the id is unknown. *)
Definition window (w : world) (conversation_id : string) : list Msg.t :=
  default [] (conversations w !! conversation_id).

(** The client that [generate_response] selects, with the call it makes and
    the outcome of that call. *)
Definition selected_client (e : env) (context : string) : option (call * option string) :=
  let prompt := Llm.SYSTEM_PROMPT +:+ PyStr.nl +:+ PyStr.nl +:+ context in
  match openai_client e, anthropic_client e, gemini_client e with
  | Some f, _, _ =>
      Some (OpenAIChat Llm.SYSTEM_PROMPT context, f Llm.SYSTEM_PROMPT context)
  | None, Some f, _ => Some (AnthropicMessages prompt, f prompt)
  | None, None, Some f => Some (GeminiGenerate prompt, f prompt)
  | None, None, None => None
  end.

(** The reply chain as the specification words it: the configured back ends
    are attempted in priority order, a failure advances to the next one, and
    the canned reply is returned only when all of them failed. *)
Definition attempts_in_order (e : env) (context : string) : list (option string) :=
  let prompt := Llm.SYSTEM_PROMPT +:+ PyStr.nl +:+ PyStr.nl +:+ context in
  (match openai_client e with
   | Some f => [f Llm.SYSTEM_PROMPT context]
   | None => []
   end ++
   match anthropic_client e with Some f => [f prompt] | None => [] end ++
   match gemini_client e with Some f => [f prompt] | None => [] end)%list.

Fixpoint first_success (attempts : list (option string)) : option string :=
  match attempts with
  | [] => None
  | Some text :: _ => Some text
  | None :: rest => first_success rest
  end.

Definition reply_chain_spec (e : env) (current_message : string)
    (conversation_history : list Msg.t) (sentiment : SentimentResult) : string :=
  let context := Llm._build_context e current_message conversation_history sentiment in
  match first_success (attempts_in_order e context) with
  | Some text => PyStr.strip text
  | None => Llm._fallback_response sentiment
  end.

(** The window once the user message is recorded: the last 6 entries of the
    old window followed by the user message. *)
Definition recorded (w : world) (now : string) (request : ChatRequest.t) : list Msg.t :=
  PyStr.last_n 6 (window w (Main.conversation_id_of request now) ++ [user_entry now request]).

(** The state in which the components are called. *)
Definition recorded_world (w : world) (now : string) (request : ChatRequest.t)
    (t : list call) : world :=
  {| conversations :=
       <[Main.conversation_id_of request now := recorded w now request]> (conversations w);
     calls := t |}.

(** The response of the crisis branch. *)
Definition crisis_response (now : string) (request : ChatRequest.t) (s : SentimentResult)
  : ChatResponse.t :=
  {| ChatResponse.response := Safety.get_crisis_response;
     ChatResponse.sentiment := s;
     ChatResponse.crisis_detected := true;
     ChatResponse.timestamp := now;
     ChatResponse.conversation_id := Main.conversation_id_of request now;
     ChatResponse.resources := Some Main.crisis_resources |}.

(** The response of the normal branch. *)
Definition normal_response (now : string) (request : ChatRequest.t) (s : SentimentResult)
    (response_text : string) : ChatResponse.t :=
  {| ChatResponse.response := response_text;
     ChatResponse.sentiment := s;
     ChatResponse.crisis_detected := false;
     ChatResponse.timestamp := now;
     ChatResponse.conversation_id := Main.conversation_id_of request now;
     ChatResponse.resources := Some Main.general_resources |}.

Definition internal_server_error : exn := HTTPException 500 "Internal server error".

(** The state after the normal branch: the reply is appended to the window
    that was cut to 6 entries before. *)
Definition replied_world (w : world) (now : string) (request : ChatRequest.t)
    (response_text : string) (t : list call) : world :=
  {| conversations :=
       <[Main.conversation_id_of request now :=
           (recorded w now request ++ [assistant_entry now response_text])%list]>
         (conversations w);
     calls := t |}.

(** Requests served one after the other, each with its clock reading; the
    responses (or errors) come back in the same order. *)
Fixpoint serve (sv : Main.services) (requests : list (string * ChatRequest.t)) (w : world)
  : list (result ChatResponse.t) * world :=
  match requests with
  | [] => ([], w)
  | (now, request) :: rest =>
      let '(r, w') := Main.chat sv now request w in
      let '(rs, w'') := serve sv rest w' in
      (r :: rs, w'')
  end.

(** The answer of a back end on [x]: [None] when it is not configured or
    when its call fails. *)
Definition answer {A B} (client : option (A -> option B)) (x : A) : option B :=
  match client with
  | Some f => f x
  | None => None
  end.

(** The calls to the database among the calls made. *)
Definition is_db_call (c : call) : bool :=
  match c with
  | DbInsert _ _ _ _ => true
  | _ => false
  end.

Definition db_calls (t : list call) : list call := List.filter is_db_call t.

(** The text that a call hands to a generation back end. *)
Definition prompt_of (c : call) : string :=
  match c with
  | OpenAIChat system context => system +:+ context
  | AnthropicMessages prompt => prompt
  | GeminiGenerate prompt => prompt
  | _ => ""
  end.

(** The same services with another state of the database file. *)
Definition with_db (available : bool) (e : env) : env :=
  {| google_client := google_client e;
     hf_pipeline := hf_pipeline e;
     openai_client := openai_client e;
     anthropic_client := anthropic_client e;
     gemini_client := gemini_client e;
     logging_enabled := logging_enabled e;
     db_available := available;
     format_2f := format_2f e |}.

(** Every stored window holds at most [n] entries. *)
Definition windows_bounded (n : nat) (w : world) : Prop :=
  forall conversation_id, (length (window w conversation_id) <= n)%nat.

(** The first and the last character of a string. *)
Definition first_char (s : string) : option ascii := head (list_ascii_of_string s).
Definition last_char (s : string) : option ascii := last (list_ascii_of_string s).

(** The record that the handler writes to the database, when logging is
    enabled. *)
Definition log_record (e : env) (conversation_id : string) (s : SentimentResult)
    (crisis : bool) (severity : string) : list call :=
  if logging_enabled e then [DbInsert conversation_id s crisis severity] else [].

(** The severity tag of a request: high on a crisis, medium on a score below
    -0.5, low otherwise. *)
Definition severity_of (crisis : bool) (s : SentimentResult) : string :=
  if crisis then "high"
  else if (score s <? -0.5)%float then "medium"
  else "low".

(** *** Concrete settings *)

Definition empty_world : world := {| conversations := ∅; calls := [] |}.

(** No key is set and no model is installed: every client is [None]. The
    only confidence that is then formatted is 0.6. *)
Definition offline : env := {|
  google_client := None;
  hf_pipeline := None;
  openai_client := None;
  anthropic_client := None;
  gemini_client := None;
  logging_enabled := false;
  db_available := false;
  format_2f := fun _ => "0.60"
|}.

(** OpenAI and Anthropic are both configured; OpenAI is down, Anthropic
    answers. *)
Definition openai_down : env := {|
  google_client := None;
  hf_pipeline := None;
  openai_client := Some (fun _ _ => None);
  anthropic_client := Some (fun _ => Some "I'm here to listen.");
  gemini_client := None;
  logging_enabled := false;
  db_available := false;
  format_2f := fun _ => "0.60"
|}.

(** OpenAI is configured and echoes the context it is given. *)
Definition openai_echo : env := {|
  google_client := None;
  hf_pipeline := None;
  openai_client := Some (fun _ context => Some context);
  anthropic_client := None;
  gemini_client := None;
  logging_enabled := false;
  db_available := false;
  format_2f := fun _ => "0.60"
|}.

Definition request_in (conversation_id message : string) : ChatRequest.t :=
  {| ChatRequest.message := message;
     ChatRequest.conversation_id := Some conversation_id;
     ChatRequest.user_id := Some "anonymous" |}.

(** The components with the analyzer that [test_sentiment_analysis_failure]
    installs: every call raises. *)
Definition failing_analyzer : Main.services :=
  with_analyze (fun _ => raise (ServiceError "Sentiment API failed"))
    (Main.production offline).

(* ===================================================================== *)
(** * Properties *)
(* ===================================================================== *)

(** Unfolds the monadic plumbing of a computation and nothing else. *)
Ltac run_monad :=
  cbv beta iota zeta delta
    [try_except mbind ST_bind mret ST_ret call_client call_service emit raise lift
     run_io result_bind result_ret].

(** Reduces the projections of a state that is given by its fields. *)
Ltac simpl_world := cbn beta iota zeta delta [calls conversations].

(** ** Strings and slices *)

Section StringFacts.
Import PyStr.

Lemma startswith_spec (w m : string) :
  startswith w m = true <-> exists b, m = w +:+ b.
Proof.
  revert m. induction w as [|a w IH]; intros m; simpl.
  - split; [intros _; exists m; reflexivity | reflexivity].
  - destruct m as [|b m]; simpl.
    + split; [discriminate | intros [x Hx]; discriminate].
    + rewrite andb_true_iff, Ascii.eqb_eq, IH. split.
      * intros [-> [x ->]]. exists x. reflexivity.
      * intros [x Hx]. injection Hx as -> ->. split; [reflexivity | exists x; reflexivity].
Qed.

Lemma str_in_spec (w m : string) : str_in w m = true <-> substring w m.
Proof.
  unfold substring. induction m as [|c m IH].
  - simpl. rewrite orb_false_r, startswith_spec. split.
    + intros [b Hb]. exists EmptyString, b. exact Hb.
    + intros [a [b Hab]]. destruct a; simpl in Hab; [exists b; exact Hab | discriminate].
  - cbn [str_in]. rewrite orb_true_iff, startswith_spec, IH. split.
    + intros [[b Hb] | [a [b Hab]]].
      * exists EmptyString, b. exact Hb.
      * exists (String c a), b. simpl. rewrite Hab. reflexivity.
    + intros [a [b Hab]]. destruct a as [|c' a]; simpl in Hab.
      * left. exists b. exact Hab.
      * right. injection Hab as _ Hab. exists a, b. exact Hab.
Qed.

Lemma length_last_n {A} (n : nat) (l : list A) :
  length (last_n n l) = Nat.min n (length l).
Proof. unfold last_n. rewrite length_skipn. lia. Qed.

(** A slice [l[-n:]] drops a prefix of [l] and keeps the rest as it is. *)
Lemma last_n_suffix {A} (n : nat) (l : list A) :
  exists dropped, l = (dropped ++ last_n n l)%list /\ length dropped = (length l - n)%nat.
Proof.
  unfold last_n. exists (firstn (length l - n) l). split.
  - symmetry. apply firstn_skipn.
  - rewrite length_firstn. lia.
Qed.

Lemma last_n_all {A} (n : nat) (l : list A) : (length l <= n)%nat -> last_n n l = l.
Proof. unfold last_n. intros H. replace (length l - n)%nat with 0%nat by lia. reflexivity. Qed.

Lemma last_n_snoc {A} (n : nat) (l : list A) (x : A) :
  last_n (S n) (l ++ [x]) = (last_n n l ++ [x])%list.
Proof.
  unfold last_n. rewrite length_app. simpl.
  replace (length l + 1 - S n)%nat with (length l - n)%nat by lia.
  rewrite skipn_app.
  replace (length l - n - length l)%nat with 0%nat by lia. reflexivity.
Qed.

End StringFacts.

(** ** Patterns: the matcher finds what the pattern matches *)

Section Patterns.
Import PyStr Re.

Lemma matches_length r prev s prev' s' :
  matches r prev s prev' s' ->
  (length s' <= length s)%nat /\
  (length s' = length s -> prev' = prev /\ s' = s).
Proof.
  induction 1 as
    [ | | | | | r1 r2 prev s prev1 s1 prev2 s2 _ [L1 E1] _ [L2 E2]
      | | | | r prev s prev1 s1 prev2 s2 _ [L1 E1] _ [L2 E2] ];
    cbn [length]; try (split; [lia | intros; (lia || (split; reflexivity))]);
    try assumption.
  - split; [lia|]. intros E.
    destruct E1 as [-> ->]; [lia|]. apply E2. exact E.
  - split; [lia|]. intros E.
    destruct E1 as [-> ->]; [lia|]. apply E2. exact E.
Qed.

Lemma xorb_true_neq (a b : bool) : xorb a b = true <-> a <> b.
Proof. destruct a, b; simpl; split; congruence. Qed.

Section Star.
Variable body : option ascii -> list ascii -> (option ascii -> list ascii -> bool) -> bool.
Variable r : regex.
Hypothesis body_spec : forall prev s k,
  body prev s k = true <-> exists prev' s', matches r prev s prev' s' /\ k prev' s' = true.
Variable k : option ascii -> list ascii -> bool.

Lemma star_loop_sound (n : nat) : forall prev s,
  star_loop body k n prev s = true ->
  exists prev' s', matches (Star r) prev s prev' s' /\ k prev' s' = true.
Proof.
  induction n as [|n IH]; intros prev s H; cbn [star_loop] in H;
    apply orb_true_iff in H; destruct H as [H|H];
    try (exists prev, s; split; [constructor|exact H]); try discriminate.
  apply body_spec in H. destruct H as (prev1 & s1 & M1 & H).
  apply andb_true_iff in H. destruct H as [_ H].
  destruct (IH _ _ H) as (prev2 & s2 & M2 & K).
  exists prev2, s2. split; [|exact K]. eapply matches_star_more; eassumption.
Qed.

Lemma star_loop_complete prev s prev' s' :
  matches (Star r) prev s prev' s' -> k prev' s' = true ->
  forall n, (length s <= n)%nat -> star_loop body k n prev s = true.
Proof.
  intros M. remember (Star r) as R eqn:ER.
  induction M as
    [ | | | | | | | | r0 prev s
      | r0 prev s prev1 s1 prev2 s2 M1 _ M2 IH2 ];
    try discriminate; intros K n Hn.
  - destruct n; cbn [star_loop]; rewrite K; reflexivity.
  - injection ER as ->. specialize (IH2 eq_refl K).
    destruct (matches_length _ _ _ _ _ M1) as [L1 E1].
    destruct (Nat.eq_dec (length s1) (length s)) as [E|NE].
    + destruct (E1 E) as [-> ->]. apply IH2. exact Hn.
    + destruct n as [|n]; [lia|]. cbn [star_loop]. apply orb_true_iff. right.
      apply body_spec. exists prev1, s1. split; [exact M1|].
      apply andb_true_iff. split; [apply Nat.ltb_lt; lia|]. apply IH2. lia.
Qed.

End Star.

(** The matcher accepts exactly when the pattern matches a prefix that the
    continuation accepts. *)
Theorem rmatch_spec (r : regex) : forall prev s k,
  rmatch r prev s k = true <->
  exists prev' s', matches r prev s prev' s' /\ k prev' s' = true.
Proof.
  induction r as [ |c| | | |r1 IH1 r2 IH2|r1 IH1 r2 IH2|r1 IH1];
    intros prev s k; cbn [rmatch].
  - split.
    + intros H. exists prev, s. split; [constructor|exact H].
    + intros (prev' & s' & M & K). inversion M; subst. exact K.
  - destruct s as [|x s].
    + split; [discriminate|]. intros (prev' & s' & M & _). inversion M.
    + rewrite andb_true_iff, Ascii.eqb_eq. split.
      * intros [E K]. exists (Some x), s. split; [constructor; exact E|exact K].
      * intros (prev' & s' & M & K). inversion M; subst. split; assumption.
  - destruct s as [|x s].
    + split; [discriminate|]. intros (prev' & s' & M & _). inversion M.
    + rewrite andb_true_iff, negb_true_iff, Ascii.eqb_neq. split.
      * intros [E K]. exists (Some x), s. split; [constructor; exact E|exact K].
      * intros (prev' & s' & M & K). inversion M; subst. split; assumption.
  - destruct s as [|x s].
    + split; [discriminate|]. intros (prev' & s' & M & _). inversion M.
    + rewrite andb_true_iff. split.
      * intros [E K]. exists (Some x), s. split; [constructor; exact E|exact K].
      * intros (prev' & s' & M & K). inversion M; subst. split; assumption.
  - rewrite andb_true_iff, xorb_true_neq. split.
    + intros [E K]. exists prev, s. split; [constructor; exact E|exact K].
    + intros (prev' & s' & M & K). inversion M; subst. split; assumption.
  - rewrite IH1. split.
    + intros (prev1 & s1 & M1 & H). apply IH2 in H.
      destruct H as (prev2 & s2 & M2 & K).
      exists prev2, s2. split; [econstructor; eassumption|exact K].
    + intros (prev2 & s2 & M & K). inversion M; subst.
      eexists _, _. split; [eassumption|]. apply IH2. eauto.
  - rewrite orb_true_iff, IH1, IH2. split.
    + intros [(prev' & s' & M & K)|(prev' & s' & M & K)]; exists prev', s';
        (split; [|exact K]); [apply matches_alt_l|apply matches_alt_r]; exact M.
    + intros (prev' & s' & M & K). inversion M; subst; [left|right]; eauto.
  - split.
    + apply star_loop_sound. exact IH1.
    + intros (prev' & s' & M & K).
      eapply star_loop_complete; [exact IH1|exact M|exact K|lia].
Qed.

Lemma search_from_spec (r : regex) : forall prev s,
  search_from r prev s = true <->
  exists before rest prev' s',
    s = (before ++ rest)%list /\
    matches r (match last before with Some c => Some c | None => prev end) rest prev' s'.
Proof.
  intros prev s. revert prev. induction s as [|x s IH]; intros prev; cbn [search_from].
  - rewrite orb_false_r, rmatch_spec. split.
    + intros (prev' & s' & M & _). exists [], [], prev', s'. split; [reflexivity|exact M].
    + intros (before & rest & prev' & s' & E & M).
      destruct before; [|discriminate]. simpl in E. subst rest. eauto.
  - rewrite orb_true_iff, rmatch_spec, IH. split.
    + intros [(prev' & s' & M & _)|(before & rest & prev' & s' & E & M)].
      * exists [], (x :: s), prev', s'. split; [reflexivity|exact M].
      * exists (x :: before), rest, prev', s'. split; [simpl; rewrite E; reflexivity|].
        destruct before as [|y before]; [exact M|].
        rewrite last_cons. destruct (last (y :: before)) eqn:El; [exact M|].
        apply last_None in El. discriminate.
    + intros (before & rest & prev' & s' & E & M).
      destruct before as [|y before].
      * left. simpl in E. subst rest. eauto.
      * right. injection E as -> E. exists before, rest, prev', s'.
        split; [exact E|]. rewrite last_cons in M.
        destruct (last before); exact M.
Qed.

(** [pattern.search(message)] is true exactly when the pattern matches
    somewhere in the message. *)
Theorem search_spec (r : regex) (message : string) :
  search r message = true <-> occurs r (list_ascii_of_string message).
Proof.
  unfold search, occurs. rewrite search_from_spec. split;
    intros (before & rest & prev' & s' & E & M); exists before, rest, prev', s';
    (split; [exact E|]); destruct (last before); exact M.
Qed.

End Patterns.

(** ** The crisis detector *)

Section Detector.
Import PyStr Re Safety.

(** The eight patterns as [re.compile] reads them. *)
Lemma compiled_patterns_readable :
  compiled_patterns = [
  whole_words [phrase ["kill"; "myself"]; phrase ["suicide"]; phrase ["end"; "my"; "life"];
               phrase ["take"; "my"; "life"]; phrase ["want"; "to"; "die"]];
  whole_words [phrase ["suicidal"]; phrase ["end"; "it"; "all"];
               phrase ["not"; "worth"; "living"]; phrase ["better"; "off"; "dead"]];
  whole_words [phrase ["cut"; "myself"]; phrase ["hurt"; "myself"];
               cat (text "self" ++ [Star Space] ++ text "harm"); phrase ["cutting"];
               phrase ["burning"; "myself"]];
  whole_words [phrase ["razor"]; phrase ["blade"]; phrase ["pills"; "to"; "die"];
               phrase ["overdose"]];
  whole_words [phrase ["going"; "to"; "kill"]; phrase ["planning"; "to"; "die"];
               cat (text "tonight" ++ [Plus Space; Star Any; Plus Space] ++ text "die");
               phrase ["ready"; "to"; "die"]];
  whole_words [phrase ["gun"]; phrase ["rope"]; phrase ["bridge"]; phrase ["jump"; "off"];
               cat (text "pills" ++ [Plus Space; Star Any; Plus Space] ++ text "die")];
  whole_words [cat (text "kill" ++ [Plus Space;
                      alt [phrase ["someone"]; phrase ["them"]; phrase ["him"]; phrase ["her"]]]);
               cat (text "hurt" ++ [Plus Space;
                      alt [phrase ["someone"]; phrase ["people"]; phrase ["others"]]])];
  whole_words [phrase ["planning"; "to"; "hurt"]; phrase ["going"; "to"; "hurt"];
               cat (spaced ["want"; "to"; "hurt"] ++ [Plus Space;
                      alt [phrase ["someone"]; phrase ["others"]]])]
]%list.
Proof. vm_compute. reflexivity. Qed.

(** All eight patterns of the library compile. *)
Lemma compiled_patterns_all : length compiled_patterns = length crisis_patterns.
Proof. vm_compute. reflexivity. Qed.

Lemma any_pattern_str (patterns : list regex) (s : string) :
  any_pattern patterns (PyStr s) = Ok (existsb (fun pattern => search pattern s) patterns).
Proof.
  induction patterns as [|p ps IH]; simpl; [reflexivity|].
  unfold mbind, result_bind; simpl.
  destruct (search p s); simpl; [reflexivity | exact IH].
Qed.

Lemma any_pattern_not_str (patterns : list regex) (message : pyobj) :
  (forall s, message <> PyStr s) -> patterns <> [] ->
  any_pattern patterns message = Raise TypeError.
Proof.
  intros Hns Hne. destruct patterns as [|p ps]; [congruence|].
  destruct message; simpl; try reflexivity. exfalso. eapply Hns. reflexivity.
Qed.

Lemma detect_crisis_body_str (s : string) :
  detect_crisis_body (PyStr s) = Ok (detect_str s).
Proof.
  unfold detect_crisis_body, detect_str. rewrite any_pattern_str.
  unfold mbind, result_bind, py_lower.
  destruct (existsb (fun pattern => search pattern s) compiled_patterns);
    [reflexivity|].
  destruct (existsb (fun phrase => str_in phrase (lower s)) high_risk_phrases);
    [reflexivity|].
  destruct (_contextual_crisis_check (lower s)); reflexivity.
Qed.

Lemma detect_crisis_str (s : string) : detect_crisis (PyStr s) = Ok (detect_str s).
Proof. unfold detect_crisis. rewrite detect_crisis_body_str. reflexivity. Qed.

Lemma contextual_check_spec (message : string) :
  _contextual_crisis_check message = true <->
  exists combination,
    In combination crisis_combinations /\
    forall word, In word combination -> substring word message.
Proof.
  unfold _contextual_crisis_check. rewrite existsb_exists.
  split; intros [combination [Hin Hall]]; exists combination; split; try exact Hin.
  - rewrite forallb_forall in Hall. intros word Hw. apply str_in_spec, Hall, Hw.
  - apply forallb_forall. intros word Hw. apply str_in_spec, Hall, Hw.
Qed.

(** C2. Whatever value it is given, [detect_crisis] returns a boolean and
    never raises: on a [str] it returns the verdict of the three stages, a
    fault inside the body (as on [None]) is caught and answered by
    [False], and the empty string is not a crisis. *)
Theorem detect_crisis_never_raises :
  (forall message : pyobj,
      match detect_crisis_body message with
      | Ok b => detect_crisis message = Ok b
      | Raise _ => detect_crisis message = Ok false
      end) /\
  (forall message : pyobj, exists b : bool, detect_crisis message = Ok b) /\
  (forall s : string, detect_crisis (PyStr s) = Ok (detect_str s)) /\
  (detect_crisis_body PyNone = Raise TypeError /\ detect_crisis PyNone = Ok false) /\
  detect_crisis (PyStr "") = Ok false.
Proof.
  assert (H : forall message : pyobj,
             match detect_crisis_body message with
             | Ok b => detect_crisis message = Ok b
             | Raise _ => detect_crisis message = Ok false
             end).
  { intros message. unfold detect_crisis. destruct (detect_crisis_body message); reflexivity. }
  split; [exact H|]. split; [|split; [exact detect_crisis_str|split]].
  - intros message. specialize (H message).
    destruct (detect_crisis_body message) as [b|e]; eauto.
  - split; vm_compute; reflexivity.
  - vm_compute. reflexivity.
Qed.

(** C3. The detector flags the four crisis sentences and passes the three
    harmless ones. *)
Theorem detect_crisis_examples :
  detect_crisis (PyStr "I want to kill myself") = Ok true /\
  detect_crisis (PyStr "I'm going to end my life tonight") = Ok true /\
  detect_crisis (PyStr "I want to cut myself") = Ok true /\
  detect_crisis (PyStr "I've been burning myself") = Ok true /\
  detect_crisis (PyStr "") = Ok false /\
  detect_crisis (PyStr "I had a good day") = Ok false /\
  detect_crisis (PyStr "Can you help me with anxiety?") = Ok false.
Proof. repeat split; vm_compute; reflexivity. Qed.

(** C4. A message whose lower-cased text contains "pain", "can't" and
    "anymore" is a crisis, in whatever order and position they occur, also
    when no pattern and no high-risk phrase matches (as for the message
    shown); and a word-combination rule fires exactly when each of its
    tokens is a substring of the lower-cased message. *)
Theorem word_combination_rule :
  (forall message : string,
      substring "pain" (lower message) ->
      substring "can't" (lower message) ->
      substring "anymore" (lower message) ->
      detect_crisis (PyStr message) = Ok true) /\
  (let message := "Anymore of this PAIN? I can't." in
   existsb (fun pattern => search pattern message) compiled_patterns = false /\
   existsb (fun phrase => str_in phrase (lower message)) high_risk_phrases = false /\
   detect_crisis (PyStr message) = Ok true) /\
  (forall message : string,
      _contextual_crisis_check (lower message) = true <->
      exists combination,
        In combination crisis_combinations /\
        forall word, In word combination -> substring word (lower message)).
Proof.
  split; [|split].
  - intros message H1 H2 H3. rewrite detect_crisis_str. f_equal.
    unfold detect_str. apply orb_true_iff. right.
    apply contextual_check_spec. exists ["pain"; "can't"; "anymore"]. split.
    + left. reflexivity.
    + intros word [<-|[<-|[<-|[]]]]; assumption.
  - repeat split; vm_compute; reflexivity.
  - intros message. apply contextual_check_spec.
Qed.

(** C4 on the first sentence of the repository's test of the rule. *)
Lemma word_combination_rule_witness :
  detect_crisis (PyStr "I'm in so much PAIN and can't take it anymore") = Ok true.
Proof.
  apply (proj1 word_combination_rule); apply str_in_spec; vm_compute; reflexivity.
Defined.

End Detector.

(** ** Sentiment scoring *)

Section Sentiment.
Import PyStr Nlp.

Lemma Prim2SF_tenth : Prim2SF 0.1 = S754_finite false 7205759403792794 (-56).
Proof. vm_compute. reflexivity. Qed.

Lemma Prim2SF_minus_tenth : Prim2SF (-0.1) = S754_finite true 7205759403792794 (-56).
Proof. vm_compute. reflexivity. Qed.

(** A binary64 number is not at once above 0.1 and below -0.1. *)
Lemma not_above_and_below (s : float) :
  (0.1 <? s)%float = true -> (s <? -0.1)%float = true -> False.
Proof.
  rewrite 2!ltb_spec. rewrite Prim2SF_tenth, Prim2SF_minus_tenth.
  unfold SFltb, SFcompare.
  destruct (Prim2SF s) as [sg|sg| |sg m e]; try discriminate;
    destruct sg; try discriminate.
Qed.

Lemma llm_calls_app (t t' : list call) :
  llm_calls (t ++ t') = (llm_calls t ++ llm_calls t')%list.
Proof. unfold llm_calls. apply List.filter_app. Qed.

Lemma llm_calls_snoc_other (t : list call) (c : call) :
  is_llm_call c = false -> llm_calls (t ++ [c]) = llm_calls t.
Proof.
  intros H. rewrite llm_calls_app. unfold llm_calls at 2. simpl. rewrite H.
  apply app_nil_r.
Qed.

Lemma basic_label_agrees (text : string) :
  label (_basic_sentiment text) = _score_to_label (score (_basic_sentiment text)).
Proof.
  unfold _basic_sentiment.
  destruct (_ <? _)%nat; [vm_compute; reflexivity|].
  destruct (_ <? _)%nat; vm_compute; reflexivity.
Qed.

(** The analyzer never raises, labels its result by the shared rule, and
    calls no generation back end. *)
Lemma analyze_total (e : env) (text : string) (t : list call) :
  exists s t',
    analyze e text t = (Ok s, t') /\
    label s = _score_to_label (score s) /\
    llm_calls t' = llm_calls t.
Proof.
  unfold analyze, _analyze_with_google, _analyze_with_huggingface.
  destruct (google_client e) as [g|]; destruct (hf_pipeline e) as [h|]; run_monad;
    try destruct (g text) as [[sc mg]|]; try destruct (h text) as [results|];
    eexists; eexists; (split; [reflexivity|]); split;
    try apply basic_label_agrees; try reflexivity;
    rewrite ?llm_calls_snoc_other by reflexivity; reflexivity.
Qed.

Lemma analyze_unavailable (e : env) (text : string) (t : list call) :
  unavailable (google_client e) text -> unavailable (hf_pipeline e) text ->
  exists t', analyze e text t = (Ok (_basic_sentiment text), t').
Proof.
  unfold unavailable, analyze, _analyze_with_google, _analyze_with_huggingface.
  destruct (google_client e) as [g|]; destruct (hf_pipeline e) as [h|];
    intros Hg Hh; run_monad; rewrite ?Hg, ?Hh; eexists; reflexivity.
Qed.

(** C7. A score is labelled "positive" exactly when it is above 0.1,
    "negative" exactly when it is below -0.1 and "neutral" otherwise (the
    comparisons are those of binary64); 0.1 and -0.1 are "neutral"; and
    whichever provider scored the text, the label of the result of [analyze]
    is the one this rule gives to its score. *)
Theorem score_to_label_rule :
  (forall s : float,
      (_score_to_label s = "positive" <-> (0.1 <? s)%float = true) /\
      (_score_to_label s = "negative" <-> (s <? -0.1)%float = true) /\
      (_score_to_label s = "neutral" <->
         (0.1 <? s)%float = false /\ (s <? -0.1)%float = false)) /\
  _score_to_label 0.1 = "neutral" /\
  _score_to_label (-0.1) = "neutral" /\
  (forall (e : env) (text : string) (t : list call),
      exists r t', analyze e text t = (Ok r, t') /\
                   label r = _score_to_label (score r)).
Proof.
  split; [|split; [vm_compute; reflexivity|split; [vm_compute; reflexivity|]]].
  - intros s. pose proof (not_above_and_below s) as Hx. unfold _score_to_label.
    destruct (0.1 <? s)%float; destruct (s <? -0.1)%float;
      repeat split; intros; try discriminate; try reflexivity;
      try (exfalso; apply Hx; reflexivity);
      match goal with H : _ /\ _ |- _ => destruct H; discriminate end.
  - intros e text t. destruct (analyze_total e text t) as (r & t' & H & Hl & _).
    exists r, t'. split; assumption.
Qed.

Lemma basic_sentiment_cases (text : string) :
  let r := _basic_sentiment text in
  let p := count_words positive_words (lower text) in
  let n := count_words negative_words (lower text) in
  provider r = "basic" /\
  confidence r = 0.6%float /\
  magnitude r = abs (score r) /\
  ((p < n)%nat -> score r = (-0.7)%float /\ label r = "negative") /\
  ((n < p)%nat -> score r = 0.7%float /\ label r = "positive") /\
  (p = n -> score r = 0.0%float /\ label r = "neutral").
Proof.
  cbv zeta. unfold _basic_sentiment.
  destruct (Nat.ltb_spec (count_words positive_words (lower text))
                         (count_words negative_words (lower text))) as [H|H];
    [|destruct (Nat.ltb_spec (count_words negative_words (lower text))
                             (count_words positive_words (lower text))) as [H'|H']];
    cbn [provider confidence magnitude score label];
    repeat split; intros; try reflexivity; lia.
Qed.

(** The scorer counts the listed words that occur in the text. *)
Lemma occurring_filter (words : list string) (text_lower : string) :
  occurring text_lower words (List.filter (fun word => str_in word text_lower) words).
Proof.
  induction words as [|word rest IH]; cbn [List.filter]; [constructor|].
  destruct (str_in word text_lower) eqn:Hin.
  - apply occurring_found; [apply str_in_spec; exact Hin|exact IH].
  - apply occurring_absent; [|exact IH].
    intros Hsub. apply str_in_spec in Hsub. congruence.
Qed.

Lemma count_words_occurring (words found : list string) (text_lower : string) :
  occurring text_lower words found -> count_words words text_lower = length found.
Proof.
  induction 1 as [|word words found Hsub _ IH|word words found Hsub _ IH];
    cbn [count_words length].
  - reflexivity.
  - apply str_in_spec in Hsub. rewrite Hsub, IH. reflexivity.
  - destruct (str_in word text_lower) eqn:Hin.
    + exfalso. apply Hsub, str_in_spec, Hin.
    + exact IH.
Qed.

(** C8. When the external sentiment providers are unavailable (not
    configured, or failing on this text), [analyze] returns the result of the
    local lexicon scorer. That scorer has a list of 12 positive and a list of
    18 negative words; the positive count is the number of words of the
    first list that are substrings of the lower-cased text, the negative
    count the number of words of the second list that are. It returns -0.7
    and "negative" when the negative count is the larger, 0.7 and "positive"
    when the positive count is the larger, 0.0 and "neutral" when they are
    equal, always with confidence 0.6 and magnitude |score|. *)
Theorem lexicon_fallback (e : env) (text : string) (t : list call) :
  unavailable (google_client e) text ->
  unavailable (hf_pipeline e) text ->
  exists (t' : list call) (found_positive found_negative : list string),
    analyze e text t = (Ok (_basic_sentiment text), t') /\
    occurring (lower text)
      ["good"; "great"; "happy"; "joy"; "love"; "wonderful"; "amazing";
       "excellent"; "fantastic"; "perfect"; "awesome"; "brilliant"]
      found_positive /\
    occurring (lower text)
      ["bad"; "terrible"; "sad"; "angry"; "hate"; "awful"; "horrible";
       "depressed"; "anxious"; "worried"; "scared"; "lonely"; "hopeless";
       "suicide"; "kill"; "die"; "hurt"; "pain"]
      found_negative /\
    let r := _basic_sentiment text in
    let p := length found_positive in
    let n := length found_negative in
    provider r = "basic" /\
    confidence r = 0.6%float /\
    magnitude r = abs (score r) /\
    ((p < n)%nat -> score r = (-0.7)%float /\ label r = "negative") /\
    ((n < p)%nat -> score r = 0.7%float /\ label r = "positive") /\
    (p = n -> score r = 0.0%float /\ label r = "neutral").
Proof.
  intros Hg Hh. destruct (analyze_unavailable e text t Hg Hh) as [t' Ht'].
  exists t'.
  exists (List.filter (fun word => str_in word (lower text)) positive_words).
  exists (List.filter (fun word => str_in word (lower text)) negative_words).
  split; [exact Ht'|].
  split; [exact (occurring_filter positive_words (lower text))|].
  split; [exact (occurring_filter negative_words (lower text))|].
  rewrite <- (count_words_occurring _ _ _ (occurring_filter positive_words (lower text))).
  rewrite <- (count_words_occurring _ _ _ (occurring_filter negative_words (lower text))).
  apply basic_sentiment_cases.
Qed.

(** C8 with no provider configured, on a text in which three negative
    words and no positive word occur. *)
Lemma lexicon_fallback_witness :
  exists t',
    analyze offline "I hate this terrible awful day" [] =
      (Ok (_basic_sentiment "I hate this terrible awful day"), t') /\
    occurring "i hate this terrible awful day" positive_words [] /\
    occurring "i hate this terrible awful day" negative_words
      ["terrible"; "hate"; "awful"] /\
    score (_basic_sentiment "I hate this terrible awful day") = (-0.7)%float /\
    label (_basic_sentiment "I hate this terrible awful day") = "negative".
Proof.
  destruct (lexicon_fallback offline "I hate this terrible awful day" [] I I)
    as (t' & fp & fn & H & Hp & Hn & _ & _ & _ & Hneg & _).
  pose proof (count_words_occurring _ _ _ Hp) as Hcp.
  pose proof (count_words_occurring _ _ _ Hn) as Hcn.
  exists t'. split; [exact H|].
  split; [exact (occurring_filter positive_words "i hate this terrible awful day")|].
  split; [exact (occurring_filter negative_words "i hate this terrible awful day")|].
  apply Hneg. cbv zeta. rewrite <- Hcp, <- Hcn. vm_compute. lia.
Defined.

(** The three texts of the repository's test of the fallback. *)
Lemma basic_sentiment_examples :
  let a := _basic_sentiment "I love this wonderful day!" in
  let b := _basic_sentiment "I hate this terrible awful day" in
  let c := _basic_sentiment "The weather is today." in
  (label a = "positive" /\ score a = 0.7%float) /\
  (label b = "negative" /\ score b = (-0.7)%float) /\
  (label c = "neutral" /\ score c = 0.0%float).
Proof. vm_compute. repeat split. Qed.

(** The count is the number of listed words that occur in the text. *)
Lemma count_words_spec (words : list string) (text_lower : string) :
  count_words words text_lower =
  length (List.filter (fun word => str_in word text_lower) words).
Proof.
  induction words as [|word rest IH]; simpl; [reflexivity|].
  rewrite IH. destruct (str_in word text_lower); reflexivity.
Qed.

End Sentiment.

(** ** Reply generation *)

Section Reply.
Import PyStr Nlp Llm.

(** [generate_response] makes at most one call, to the client it selects,
    and answers with the canned reply when that call fails. *)
Lemma generate_response_spec (e : env) (current_message : string)
    (conversation_history : list Msg.t) (s : SentimentResult) (t : list call) :
  generate_response e current_message conversation_history s t =
  match selected_client e (_build_context e current_message conversation_history s) with
  | None => (Ok (_fallback_response s), t)
  | Some (c, Some text) => (Ok (strip text), (t ++ [c])%list)
  | Some (c, None) => (Ok (_fallback_response s), (t ++ [c])%list)
  end.
Proof.
  unfold generate_response, selected_client, _generate_with_openai,
    _generate_with_anthropic, _generate_with_gemini.
  destruct (openai_client e) as [o|]; [|destruct (anthropic_client e) as [a|];
    [|destruct (gemini_client e) as [g|]]]; run_monad.
  - destruct (o SYSTEM_PROMPT _); reflexivity.
  - destruct (a _); reflexivity.
  - destruct (g _); reflexivity.
  - reflexivity.
Qed.

Lemma generate_response_total (e : env) (current_message : string)
    (conversation_history : list Msg.t) (s : SentimentResult) (t : list call) :
  exists text t',
    generate_response e current_message conversation_history s t = (Ok text, t').
Proof.
  rewrite generate_response_spec.
  destruct (selected_client _ _) as [[c [text|]]|]; eauto.
Qed.

Lemma fallback_response_by_label (s : SentimentResult) :
  _fallback_response s =
  if String.eqb (label s) "negative" then default "" (responses !! "negative")
  else if String.eqb (label s) "positive" then default "" (responses !! "positive")
  else default "" (responses !! "neutral").
Proof.
  unfold _fallback_response.
  destruct (String.eqb_spec (label s) "negative") as [->|Hn]; [reflexivity|].
  destruct (String.eqb_spec (label s) "positive") as [->|Hp]; [reflexivity|].
  destruct (String.eqb_spec (label s) "neutral") as [->|Hz]; [reflexivity|].
  unfold responses.
  rewrite !(lookup_insert_ne _ _ (label s)) by done.
  rewrite lookup_empty. reflexivity.
Qed.

Lemma fallback_response_nonempty (s : SentimentResult) : _fallback_response s <> "".
Proof.
  rewrite fallback_response_by_label.
  destruct (String.eqb _ _); [vm_compute; discriminate|].
  destruct (String.eqb _ _); vm_compute; discriminate.
Qed.

(** C6, as the code has it. [generate_response] never raises. It calls one
    back end only, the first configured one in the order OpenAI, Anthropic,
    Gemini, and returns its stripped text; when that call fails, or when no
    back end is configured, it returns the canned reply, which is chosen by
    the label among three templates (the neutral one for any other label)
    and is never empty. *)
Theorem reply_generation_first_client :
  (forall (e : env) (current_message : string) (conversation_history : list Msg.t)
          (s : SentimentResult) (t : list call),
      generate_response e current_message conversation_history s t =
      match selected_client e
              (_build_context e current_message conversation_history s) with
      | None => (Ok (_fallback_response s), t)
      | Some (c, Some text) => (Ok (strip text), (t ++ [c])%list)
      | Some (c, None) => (Ok (_fallback_response s), (t ++ [c])%list)
      end) /\
  (forall s : SentimentResult,
      _fallback_response s =
      (if String.eqb (label s) "negative" then default "" (responses !! "negative")
       else if String.eqb (label s) "positive" then default "" (responses !! "positive")
       else default "" (responses !! "neutral")) /\
      _fallback_response s <> "") /\
  (exists negative positive neutral : string,
      responses !! "negative" = Some negative /\
      responses !! "positive" = Some positive /\
      responses !! "neutral" = Some neutral /\
      negative <> "" /\ positive <> "" /\ neutral <> "" /\
      negative <> positive /\ negative <> neutral /\ positive <> neutral).
Proof.
  split; [exact generate_response_spec|split].
  - intros s. split; [apply fallback_response_by_label|apply fallback_response_nonempty].
  - do 3 eexists. repeat split; try (vm_compute; reflexivity); vm_compute; discriminate.
Qed.

(** C6 fails as stated: with OpenAI down and Anthropic configured and
    answering, the code calls OpenAI only and returns the canned reply,
    where the chain of the specification returns the answer of Anthropic. *)
Lemma reply_chain_does_not_advance :
  let s := _basic_sentiment "Hello" in
  generate_response openai_down "Hello" [] s [] =
    (Ok (_fallback_response s),
     [OpenAIChat SYSTEM_PROMPT (_build_context openai_down "Hello" [] s)]) /\
  reply_chain_spec openai_down "Hello" [] s = "I'm here to listen." /\
  fst (generate_response openai_down "Hello" [] s []) <>
    Ok (reply_chain_spec openai_down "Hello" [] s).
Proof.
  cbv zeta. split; [|split].
  - rewrite generate_response_spec. reflexivity.
  - vm_compute. reflexivity.
  - vm_compute. discriminate.
Qed.

End Reply.

(** ** The handler of [/chat] *)

Section Handler.
Import PyStr Main.

Lemma window_insert (w : world) (id : string) (h : list Msg.t) (t : list call) :
  window {| conversations := <[id := h]> (conversations w); calls := t |} id = h.
Proof. unfold window. cbn [conversations]. rewrite lookup_insert_eq. reflexivity. Qed.

Lemma window_insert_ne (w : world) (id id' : string) (h : list Msg.t) (t : list call) :
  id <> id' ->
  window {| conversations := <[id := h]> (conversations w); calls := t |} id' = window w id'.
Proof.
  intros Hne. unfold window. cbn [conversations].
  rewrite lookup_insert_ne by exact Hne. reflexivity.
Qed.

Lemma record_user_message_spec (now : string) (request : ChatRequest.t) (w : world) :
  record_user_message (conversation_id_of request now) now request w =
  (Ok (recorded w now request), recorded_world w now request (calls w)).
Proof.
  unfold record_user_message, recorded_world, recorded, get_or_create, append, store,
    window, user_entry.
  run_monad.
  destruct (conversations w !! conversation_id_of request now) as [h|] eqn:E;
    cbn [default from_option id conversations calls].
  - destruct (Nat.ltb_spec 6 (length (h ++ [{| Msg.role := "user";
        Msg.content := ChatRequest.message request; Msg.timestamp := now |}]))) as [H|H].
    + cbn [conversations calls]. rewrite insert_insert_eq. reflexivity.
    + rewrite last_n_all by exact H. reflexivity.
  - cbn [length app Nat.ltb Nat.leb conversations calls].
    rewrite insert_insert_eq. reflexivity.
Qed.

Lemma length_recorded (w : world) (now : string) (request : ChatRequest.t) :
  (1 <= length (recorded w now request) <= 6)%nat.
Proof.
  unfold recorded. rewrite length_last_n, length_app. cbn [length]. lia.
Qed.

Lemma recorded_snoc (w : world) (now : string) (request : ChatRequest.t) :
  recorded w now request =
  (last_n 5 (window w (conversation_id_of request now)) ++ [user_entry now request])%list.
Proof. unfold recorded. apply last_n_snoc. Qed.

(** What the handler does once the analyzer and the detector have answered
    and the detector saw a crisis: the reply generator does not occur. *)
Lemma chat_crisis_branch (sv : services) (now : string) (request : ChatRequest.t)
    (w : world) (s : SentimentResult) (t1 t2 : list call) :
  analyze sv (ChatRequest.message request) (calls w) = (Ok s, t1) ->
  detect_crisis sv (PyStr (ChatRequest.message request)) t1 = (Ok true, t2) ->
  chat sv now request w =
  match logger_db sv with
  | None => (Ok (crisis_response now request s), recorded_world w now request t2)
  | Some log_conversation =>
      match log_conversation (conversation_id_of request now) s true "high" t2 with
      | (Ok _, t3) => (Ok (crisis_response now request s), recorded_world w now request t3)
      | (Raise _, t3) => (Raise internal_server_error, recorded_world w now request t3)
      end
  end.
Proof.
  intros Ha Hd. unfold chat. run_monad. rewrite record_user_message_spec.
  unfold recorded_world. simpl_world. rewrite Ha. simpl_world. rewrite Hd. simpl_world.
  destruct (logger_db sv) as [log_conversation|]; simpl_world; [|reflexivity].
  destruct (log_conversation _ s true "high" t2) as [[[]|err] t3]; reflexivity.
Qed.

Lemma chat_normal_branch (sv : services) (now : string) (request : ChatRequest.t)
    (w : world) (s : SentimentResult) (t1 t2 : list call) :
  analyze sv (ChatRequest.message request) (calls w) = (Ok s, t1) ->
  detect_crisis sv (PyStr (ChatRequest.message request)) t1 = (Ok false, t2) ->
  chat sv now request w =
  match generate_response sv (ChatRequest.message request)
          (last_n 3 (recorded w now request)) s t2 with
  | (Raise _, t3) => (Raise internal_server_error, recorded_world w now request t3)
  | (Ok text, t3) =>
      match logger_db sv with
      | None => (Ok (normal_response now request s text),
                 replied_world w now request text t3)
      | Some log_conversation =>
          match log_conversation (conversation_id_of request now) s false
                  (if (score s <? -0.5)%float then "medium" else "low") t3 with
          | (Ok _, t4) => (Ok (normal_response now request s text),
                           replied_world w now request text t4)
          | (Raise _, t4) => (Raise internal_server_error,
                              replied_world w now request text t4)
          end
      end
  end.
Proof.
  intros Ha Hd. unfold chat. run_monad. rewrite record_user_message_spec.
  unfold recorded_world. simpl_world. rewrite Ha. simpl_world. rewrite Hd. simpl_world.
  destruct (generate_response sv _ _ s t2) as [[text|err] t3]; [|reflexivity].
  unfold append, store, replied_world, assistant_entry. simpl_world.
  rewrite insert_insert_eq.
  destruct (logger_db sv) as [log_conversation|]; simpl_world; [|reflexivity].
  destruct (log_conversation _ s false _ t3) as [[[]|err] t4]; reflexivity.
Qed.

Lemma chat_analyze_raises (sv : services) (now : string) (request : ChatRequest.t)
    (w : world) (err : exn) (t1 : list call) :
  analyze sv (ChatRequest.message request) (calls w) = (Raise err, t1) ->
  chat sv now request w = (Raise internal_server_error, recorded_world w now request t1).
Proof.
  intros Ha. unfold chat. run_monad. rewrite record_user_message_spec.
  unfold recorded_world. simpl_world. rewrite Ha. reflexivity.
Qed.

Lemma chat_detect_raises (sv : services) (now : string) (request : ChatRequest.t)
    (w : world) (s : SentimentResult) (err : exn) (t1 t2 : list call) :
  analyze sv (ChatRequest.message request) (calls w) = (Ok s, t1) ->
  detect_crisis sv (PyStr (ChatRequest.message request)) t1 = (Raise err, t2) ->
  chat sv now request w = (Raise internal_server_error, recorded_world w now request t2).
Proof.
  intros Ha Hd. unfold chat. run_monad. rewrite record_user_message_spec.
  unfold recorded_world. simpl_world. rewrite Ha. simpl_world. rewrite Hd. reflexivity.
Qed.

(** Whatever the components do, the handler leaves in the store the window
    with the user message, followed or not by one reply, and leaves the other
    conversations as they were. *)
Lemma chat_window (sv : services) (now : string) (request : ChatRequest.t) (w : world) :
  exists (tail : list Msg.t) (t : list call),
    snd (chat sv now request w) =
      {| conversations :=
           <[conversation_id_of request now := (recorded w now request ++ tail)%list]>
             (conversations w);
         calls := t |} /\
    (tail = [] \/ exists text, tail = [assistant_entry now text]).
Proof.
  destruct (analyze sv (ChatRequest.message request) (calls w)) as [[s|err] t1] eqn:Ha.
  2:{ rewrite (chat_analyze_raises _ _ _ _ _ _ Ha). exists [], t1.
      rewrite app_nil_r. split; [reflexivity|left; reflexivity]. }
  destruct (detect_crisis sv (PyStr (ChatRequest.message request)) t1)
    as [[[]|err] t2] eqn:Hd.
  - rewrite (chat_crisis_branch _ _ _ _ _ _ _ Ha Hd).
    destruct (logger_db sv) as [log_conversation|].
    + destruct (log_conversation _ s true "high" t2) as [[[]|err] t3];
        exists [], t3; rewrite app_nil_r; (split; [reflexivity|left; reflexivity]).
    + exists [], t2. rewrite app_nil_r. split; [reflexivity|left; reflexivity].
  - rewrite (chat_normal_branch _ _ _ _ _ _ _ Ha Hd).
    destruct (generate_response sv _ _ s t2) as [[text|err] t3].
    + destruct (logger_db sv) as [log_conversation|].
      * destruct (log_conversation _ s false _ t3) as [[[]|err] t4];
          exists [assistant_entry now text], t4;
          (split; [reflexivity|right; exists text; reflexivity]).
      * exists [assistant_entry now text], t3.
        split; [reflexivity|right; exists text; reflexivity].
    + exists [], t3. rewrite app_nil_r. split; [reflexivity|left; reflexivity].
  - rewrite (chat_detect_raises _ _ _ _ _ _ _ _ Ha Hd). exists [], t2.
    rewrite app_nil_r. split; [reflexivity|left; reflexivity].
Qed.

(** After the handler the window holds at most 7 entries. *)
Lemma chat_window_at_most_seven (sv : services) (now : string)
    (request : ChatRequest.t) (w : world) :
  (length (window (snd (chat sv now request w)) (conversation_id_of request now)) <= 7)%nat.
Proof.
  destruct (chat_window sv now request w) as (tail & t & -> & Htail).
  rewrite window_insert, length_app.
  pose proof (length_recorded w now request) as Hr.
  destruct Htail as [->|[text ->]]; cbn [length]; lia.
Qed.

(** The cut drops the oldest entries and keeps the others in their order. *)
Lemma recorded_keeps_order (w : world) (now : string) (request : ChatRequest.t) :
  exists dropped,
    (window w (conversation_id_of request now) ++ [user_entry now request])%list =
    (dropped ++ recorded w now request)%list.
Proof.
  unfold recorded.
  destruct (last_n_suffix 6
              (window w (conversation_id_of request now) ++ [user_entry now request]))
    as (dropped & H & _).
  exists dropped. exact H.
Qed.

(** The context of the reply: the last entries of the window, at most 3,
    in their order. *)
Lemma context_is_recent (w : world) (now : string) (request : ChatRequest.t) :
  (length (last_n 3 (recorded w now request)) <= 3)%nat /\
  (exists older,
      recorded w now request = (older ++ last_n 3 (recorded w now request))%list).
Proof.
  split.
  - rewrite length_last_n. lia.
  - destruct (last_n_suffix 3 (recorded w now request)) as (older & H & _).
    exists older. exact H.
Qed.

(** The handler raises nothing but the HTTP error 500. *)
Lemma chat_raises_only_500 (sv : services) (now : string) (request : ChatRequest.t)
    (w : world) :
  match fst (chat sv now request w) with
  | Ok _ => True
  | Raise err => err = HTTPException 500 "Internal server error"
  end.
Proof.
  unfold chat, try_except.
  match goal with |- context [match ?body w with _ => _ end] => destruct (body w) as [[resp|err] w'] end;
    cbn [fst]; [exact I|reflexivity].
Qed.

(** *** The components of the repository *)

Lemma production_detect (e : env) (message : string) (t : list call) :
  detect_crisis (production e) (PyStr message) t = (Ok (Safety.detect_str message), t).
Proof.
  unfold production. cbn [detect_crisis]. unfold lift.
  rewrite detect_crisis_str. reflexivity.
Qed.

Lemma log_conversation_total (e : env) (id : string) (s : SentimentResult)
    (crisis : bool) (severity : string) (t : list call) :
  Db.log_conversation e id s crisis severity t =
  (Ok tt, (t ++ [DbInsert id s crisis severity])%list).
Proof.
  unfold Db.log_conversation. run_monad. destruct (db_available e); reflexivity.
Qed.

Lemma production_logger_total (e : env) (id : string) (s : SentimentResult)
    (crisis : bool) (severity : string) (t : list call) :
  match logger_db (production e) with
  | None => True
  | Some log_conversation =>
      log_conversation id s crisis severity t =
      (Ok tt, (t ++ [DbInsert id s crisis severity])%list)
  end.
Proof.
  unfold production. cbn [logger_db].
  destruct (logging_enabled e); [apply log_conversation_total|exact I].
Qed.

(** On a message that the detector flags, the handler with the components
    of the repository takes the crisis branch and returns its response. *)
Lemma production_crisis (e : env) (now : string) (request : ChatRequest.t) (w : world) :
  Safety.detect_str (ChatRequest.message request) = true ->
  exists s t',
    chat (production e) now request w =
      (Ok (crisis_response now request s), recorded_world w now request t') /\
    llm_calls t' = llm_calls (calls w) /\
    forall g, chat (with_generate g (production e)) now request w =
              chat (production e) now request w.
Proof.
  intros Hc.
  destruct (analyze_total e (ChatRequest.message request) (calls w))
    as (s & t1 & Ha & _ & Hl).
  assert (Hd : detect_crisis (production e) (PyStr (ChatRequest.message request)) t1
               = (Ok true, t1)) by (rewrite production_detect, Hc; reflexivity).
  pose proof (chat_crisis_branch (production e) now request w s t1 t1 Ha Hd) as Hchat.
  pose proof (production_logger_total e (conversation_id_of request now) s true "high" t1)
    as Hlog.
  assert (Hg : forall g, chat (with_generate g (production e)) now request w =
                         chat (production e) now request w).
  { intros g. rewrite Hchat.
    apply (chat_crisis_branch (with_generate g (production e)) now request w s t1 t1 Ha Hd). }
  destruct (logger_db (production e)) as [log_conversation|].
  - rewrite Hlog in Hchat. exists s. eexists. split; [exact Hchat|]. split; [|exact Hg].
    rewrite llm_calls_snoc_other by reflexivity. exact Hl.
  - exists s, t1. split; [exact Hchat|]. split; [exact Hl|exact Hg].
Qed.

(** With the components of the repository the handler always returns a
    response. *)
Lemma production_total (e : env) (now : string) (request : ChatRequest.t) (w : world) :
  exists resp w', chat (production e) now request w = (Ok resp, w').
Proof.
  destruct (Safety.detect_str (ChatRequest.message request)) eqn:Hc.
  - destruct (production_crisis e now request w Hc) as (s & t' & H & _). eauto.
  - destruct (analyze_total e (ChatRequest.message request) (calls w))
      as (s & t1 & Ha & _).
    assert (Hd : detect_crisis (production e) (PyStr (ChatRequest.message request)) t1
                 = (Ok false, t1)) by (rewrite production_detect, Hc; reflexivity).
    rewrite (chat_normal_branch (production e) now request w s t1 t1 Ha Hd).
    change (generate_response (production e)) with (Llm.generate_response e).
    destruct (generate_response_total e (ChatRequest.message request)
                (last_n 3 (recorded w now request)) s t1) as (text & t3 & ->).
    pose proof (production_logger_total e (conversation_id_of request now) s false
                  (if (score s <? -0.5)%float then "medium" else "low") t3) as Hlog.
    destruct (logger_db (production e)) as [log_conversation|].
    + rewrite Hlog. eauto.
    + eauto.
Qed.

(** ** What the handler guarantees *)

(** C1. On every message that the detector flags, the handler (with the
    components of the repository, whatever the external services answer)
    returns a response with [crisis_detected = True], the fixed crisis text,
    which contains "988" and "911", and a non-empty list of resources; it
    calls no generation back end, and its outcome does not depend on the
    reply generator, which is not invoked. *)
Theorem crisis_short_circuits (e : env) (now : string) (request : ChatRequest.t)
    (w : world) :
  Safety.detect_crisis (PyStr (ChatRequest.message request)) = Ok true ->
  exists (s : SentimentResult) (w' : world),
    chat (production e) now request w =
      (Ok {| ChatResponse.response := Safety.get_crisis_response;
             ChatResponse.sentiment := s;
             ChatResponse.crisis_detected := true;
             ChatResponse.timestamp := now;
             ChatResponse.conversation_id := conversation_id_of request now;
             ChatResponse.resources := Some crisis_resources |}, w') /\
    str_in "988" Safety.get_crisis_response = true /\
    str_in "911" Safety.get_crisis_response = true /\
    crisis_resources <> [] /\
    llm_calls (calls w') = llm_calls (calls w) /\
    forall g, chat (with_generate g (production e)) now request w =
              chat (production e) now request w.
Proof.
  intros Hc. rewrite detect_crisis_str in Hc. injection Hc as Hc.
  destruct (production_crisis e now request w Hc) as (s & t' & H & Hl & Hg).
  exists s, (recorded_world w now request t').
  split; [exact H|]. split; [vm_compute; reflexivity|].
  split; [vm_compute; reflexivity|]. split; [discriminate|].
  split; [exact Hl|exact Hg].
Qed.

(** C1 at the message of the repository's test of the crisis branch. *)
Lemma crisis_short_circuits_witness :
  exists (s : SentimentResult) (w' : world),
    fst (chat (production offline) "2024-05-01T10:00:00"
           (request_in "crisis_test" "I want to end my life") empty_world) =
      Ok {| ChatResponse.response := Safety.get_crisis_response;
            ChatResponse.sentiment := s;
            ChatResponse.crisis_detected := true;
            ChatResponse.timestamp := "2024-05-01T10:00:00";
            ChatResponse.conversation_id := "crisis_test";
            ChatResponse.resources := Some crisis_resources |} /\
    llm_calls (calls w') = [].
Proof.
  destruct (crisis_short_circuits offline "2024-05-01T10:00:00"
              (request_in "crisis_test" "I want to end my life") empty_world)
    as (s & w' & H & _ & _ & _ & Hl & _).
  - vm_compute. reflexivity.
  - exists s, w'. rewrite H. split; [reflexivity|exact Hl].
Defined.

(** C5, at the input where the code leaves the bound: four messages in a
    row on one conversation, none of them a crisis, with no back end
    configured. Each is answered, and the stored window then holds 7
    entries: the reply to the fourth message is appended after the cut to 6,
    and nothing cuts the window again before the next request. *)
Theorem window_holds_seven_entries :
  let requests :=
    [("2024-05-01T10:00:00", request_in "long_test" "This is message 0");
     ("2024-05-01T10:01:00", request_in "long_test" "This is message 1");
     ("2024-05-01T10:02:00", request_in "long_test" "This is message 2");
     ("2024-05-01T10:03:00", request_in "long_test" "This is message 3")] in
  let outcome := serve (production offline) requests empty_world in
  map (fun r => match r with Ok resp => ChatResponse.crisis_detected resp | Raise _ => true end)
      (fst outcome) = [false; false; false; false] /\
  length (window (snd outcome) "long_test") = 7%nat /\
  map Msg.role (window (snd outcome) "long_test") =
    ["assistant"; "user"; "assistant"; "user"; "assistant"; "user"; "assistant"].
Proof. vm_compute. repeat split. Qed.

(** The [except] clause of the handler is reached only when a component
    is replaced by one that raises, as [test_sentiment_analysis_failure]
    does with the analyzer: the handler then answers with the HTTP error
    500. *)
Lemma chat_with_raising_analyzer :
  fst (chat failing_analyzer "2024-05-01T10:00:00"
         (request_in "error_test" "Test message") empty_world) =
  Raise (HTTPException 500 "Internal server error").
Proof. vm_compute. reflexivity. Qed.

(** C10. The user message is in the stored window whatever happens after
    it was recorded, hence before the detector runs; on the crisis branch
    the window is the old one followed by the user message and cut to 6
    entries, no reply is appended, and the next request of the conversation
    finds the flagged message in its context, just before its own message
    (as in the exchange shown, where the back end echoes its prompt). *)
Theorem crisis_message_stays_in_window (e : env) (now : string)
    (request : ChatRequest.t) (w : world) :
  Safety.detect_crisis (PyStr (ChatRequest.message request)) = Ok true ->
  let id := conversation_id_of request now in
  let u := user_entry now request in
  (forall sv : services,
      exists tail, window (snd (chat sv now request w)) id =
                   (last_n 5 (window w id) ++ [u] ++ tail)%list) /\
  (exists resp w',
      chat (production e) now request w = (Ok resp, w') /\
      ChatResponse.crisis_detected resp = true /\
      window w' id = (last_n 5 (window w id) ++ [u])%list /\
      forall (now2 : string) (request2 : ChatRequest.t),
        conversation_id_of request2 now2 = id ->
        exists history w2 older,
          record_user_message id now2 request2 w' = (Ok history, w2) /\
          last_n 3 history = (older ++ [u; user_entry now2 request2])%list) /\
  (let outcome :=
     serve (production openai_echo)
       [("2024-05-01T10:00:00", request_in "c1" "I want to kill myself");
        ("2024-05-01T10:05:00", request_in "c1" "Thank you")] empty_world in
   match fst outcome with
   | [Ok first; Ok second] =>
       ChatResponse.crisis_detected first = true /\
       ChatResponse.crisis_detected second = false /\
       str_in "User: I want to kill myself" (ChatResponse.response second) = true
   | _ => False
   end).
Proof.
  intros Hc id u. rewrite detect_crisis_str in Hc. injection Hc as Hc.
  split; [|split].
  - intros sv. destruct (chat_window sv now request w) as (tail & t & -> & _).
    exists tail. fold id. rewrite window_insert, recorded_snoc.
    rewrite <- app_assoc. reflexivity.
  - destruct (production_crisis e now request w Hc) as (s & t' & H & _).
    exists (crisis_response now request s), (recorded_world w now request t').
    split; [exact H|]. split; [reflexivity|].
    assert (Hw : window (recorded_world w now request t') id =
                 (last_n 5 (window w id) ++ [u])%list).
    { unfold recorded_world. fold id. rewrite window_insert. apply recorded_snoc. }
    split; [exact Hw|].
    intros now2 request2 Hid. rewrite <- Hid.
    rewrite record_user_message_spec. do 2 eexists.
    exists (last_n 1 (last_n 4 (last_n 5 (window w id)))).
    split; [reflexivity|].
    unfold recorded. rewrite Hid, Hw.
    rewrite last_n_snoc, last_n_snoc.
    change [u; user_entry now2 request2] with ([u] ++ [user_entry now2 request2])%list.
    rewrite app_assoc. rewrite last_n_snoc, last_n_snoc.
    rewrite <- app_assoc. reflexivity.
  - vm_compute. repeat split.
Qed.

(** C10 on the first message of a conversation. *)
Lemma crisis_message_stays_in_window_witness :
  exists resp w',
    chat (production offline) "2024-05-01T10:00:00"
      (request_in "c1" "I want to kill myself") empty_world = (Ok resp, w') /\
    window w' "c1" =
      [user_entry "2024-05-01T10:00:00" (request_in "c1" "I want to kill myself")].
Proof.
  destruct (crisis_message_stays_in_window offline "2024-05-01T10:00:00"
              (request_in "c1" "I want to kill myself") empty_world)
    as (_ & (resp & w' & H & _ & Hw & _) & _).
  - vm_compute. reflexivity.
  - exists resp, w'. split; [exact H|exact Hw].
Defined.

End Handler.

(* ===================================================================== *)
(** * Further properties of the code *)
(* ===================================================================== *)

(** ** The detector: what it decides and what it ignores *)

Section DetectorMore.
Import PyStr Re Safety.

Ltac all_chars x :=
  destruct x as [[] [] [] [] [] [] [] []]; vm_compute; reflexivity.

Lemma lower_char_idem (x : ascii) : lower_char (lower_char x) = lower_char x.
Proof. all_chars x. Qed.

Lemma isspace_lower_char (x : ascii) : isspace_char (lower_char x) = isspace_char x.
Proof. all_chars x. Qed.

Lemma isword_lower_char (x : ascii) : isword_char (lower_char x) = isword_char x.
Proof. all_chars x. Qed.

Lemma newline_lower_char (x : ascii) :
  Ascii.eqb (lower_char x) "010"%char = Ascii.eqb x "010"%char.
Proof. all_chars x. Qed.

Lemma lower_idem (s : string) : lower (lower s) = lower s.
Proof.
  induction s as [|c s IH]; simpl; [reflexivity|].
  rewrite lower_char_idem, IH. reflexivity.
Qed.

Lemma list_ascii_of_lower (s : string) :
  list_ascii_of_string (lower s) = map lower_char (list_ascii_of_string s).
Proof. induction s as [|c s IH]; simpl; [reflexivity|]. rewrite IH. reflexivity. Qed.

Lemma isword_opt_lower (prev : option ascii) :
  isword_opt (lower_char <$> prev) = isword_opt prev.
Proof. destruct prev as [c|]; simpl; [apply isword_lower_char|reflexivity]. Qed.

Lemma head_map_lower (s : list ascii) :
  head (map lower_char s) = lower_char <$> head s.
Proof. destruct s; reflexivity. Qed.

(** Two continuations that agree up to the case of what they are given. *)
Definition same_up_to_case (k k' : option ascii -> list ascii -> bool) : Prop :=
  forall prev s, k prev s = k' (lower_char <$> prev) (map lower_char s).

Lemma star_loop_lower
    (body : option ascii -> list ascii -> (option ascii -> list ascii -> bool) -> bool) :
  (forall prev s k k', same_up_to_case k k' ->
      body prev s k = body (lower_char <$> prev) (map lower_char s) k') ->
  forall k k', same_up_to_case k k' ->
  forall n prev s,
    star_loop body k n prev s =
    star_loop body k' n (lower_char <$> prev) (map lower_char s).
Proof.
  intros Hbody k k' Hk n. induction n as [|n IH]; intros prev s; cbn [star_loop].
  - rewrite (Hk prev s). reflexivity.
  - rewrite (Hk prev s). f_equal. apply Hbody.
    intros prev' s'. rewrite length_map, length_map, IH. reflexivity.
Qed.

(** The matcher does not see the case of the text. *)
Lemma rmatch_lower (r : regex) : forall prev s k k',
  same_up_to_case k k' ->
  rmatch r prev s k = rmatch r (lower_char <$> prev) (map lower_char s) k'.
Proof.
  induction r as [ |c| | | |r1 IH1 r2 IH2|r1 IH1 r2 IH2|r1 IH1];
    intros prev s k k' Hk; cbn [rmatch].
  - apply Hk.
  - destruct s as [|x s]; [reflexivity|]. cbn [map].
    rewrite lower_char_idem, (Hk (Some x) s). reflexivity.
  - destruct s as [|x s]; [reflexivity|]. cbn [map].
    rewrite newline_lower_char, (Hk (Some x) s). reflexivity.
  - destruct s as [|x s]; [reflexivity|]. cbn [map].
    rewrite isspace_lower_char, (Hk (Some x) s). reflexivity.
  - rewrite head_map_lower, !isword_opt_lower, (Hk prev s). reflexivity.
  - apply IH1. intros prev' s'. apply IH2. exact Hk.
  - rewrite (IH1 prev s k k' Hk), (IH2 prev s k k' Hk). reflexivity.
  - rewrite length_map. apply star_loop_lower; [exact IH1|exact Hk].
Qed.

Lemma search_from_lower (r : regex) : forall prev s,
  search_from r prev s = search_from r (lower_char <$> prev) (map lower_char s).
Proof.
  intros prev s. revert prev. induction s as [|x s IH]; intros prev;
    cbn [search_from map].
  - f_equal. apply rmatch_lower. intros p' s'. reflexivity.
  - f_equal; [apply rmatch_lower; intros p' s'; reflexivity|]. apply (IH (Some x)).
Qed.

Lemma search_lower (r : regex) (message : string) :
  search r (lower message) = search r message.
Proof.
  unfold search. rewrite list_ascii_of_lower.
  symmetry. apply (search_from_lower r None).
Qed.

Lemma detect_str_lower (message : string) :
  detect_str (lower message) = detect_str message.
Proof.
  unfold detect_str. rewrite lower_idem.
  assert (H : forall patterns,
             existsb (fun pattern => search pattern (lower message)) patterns =
             existsb (fun pattern => search pattern message) patterns).
  { intros patterns. induction patterns as [|r rs IH]; cbn [existsb]; [reflexivity|].
    rewrite search_lower, IH. reflexivity. }
  rewrite H. reflexivity.
Qed.

(** X1. On a message of ASCII characters the verdict of the detector does
    not depend on the case of the letters: such a message and its lower-cased
    form get the same answer, and so do any two such messages that differ in
    case only. *)
Theorem detect_crisis_ignores_case :
  (forall message : string,
      is_ascii message = true ->
      detect_crisis (PyStr (lower message)) = detect_crisis (PyStr message)) /\
  (forall m1 m2 : string,
      is_ascii m1 = true -> is_ascii m2 = true ->
      lower m1 = lower m2 -> detect_crisis (PyStr m1) = detect_crisis (PyStr m2)).
Proof.
  assert (H : forall message : string,
             detect_crisis (PyStr (lower message)) = detect_crisis (PyStr message)).
  { intros message. rewrite !detect_crisis_str, detect_str_lower. reflexivity. }
  split; [intros message _; exact (H message)|].
  intros m1 m2 _ _ E. rewrite <- (H m1), <- (H m2), E. reflexivity.
Qed.

(** X1 on a message in capitals. *)
Lemma detect_crisis_ignores_case_witness :
  detect_crisis (PyStr "I WANT TO END MY LIFE") = detect_crisis (PyStr "i want to end my life").
Proof.
  apply (proj2 detect_crisis_ignores_case);
    [vm_compute; reflexivity|vm_compute; reflexivity|vm_compute; reflexivity].
Defined.

(** X2. The detector answers [True] exactly when one of its three stages
    fires: a pattern of the library matches somewhere in the message, or a
    high-risk phrase is a substring of the lower-cased message, or all the
    tokens of a word combination are; otherwise it answers [False]. *)
Theorem detect_crisis_stages (message : string) :
  (detect_crisis (PyStr message) = Ok true <->
     (exists pattern, In pattern compiled_patterns /\
                      occurs pattern (list_ascii_of_string message)) \/
     (exists phrase, In phrase high_risk_phrases /\ substring phrase (lower message)) \/
     (exists combination, In combination crisis_combinations /\
        forall word, In word combination -> substring word (lower message))) /\
  (detect_crisis (PyStr message) = Ok true \/ detect_crisis (PyStr message) = Ok false).
Proof.
  rewrite detect_crisis_str. unfold detect_str.
  pose proof (existsb_exists (fun pattern => search pattern message) compiled_patterns)
    as Ha.
  pose proof (existsb_exists (fun phrase => str_in phrase (lower message))
                high_risk_phrases) as Hb.
  pose proof (contextual_check_spec (lower message)) as Hc.
  set (a := existsb (fun pattern => search pattern message) compiled_patterns) in *.
  set (b := existsb (fun phrase => str_in phrase (lower message)) high_risk_phrases) in *.
  set (c := _contextual_crisis_check (lower message)) in *.
  split.
  - split.
    + intros H. injection H as H.
      destruct a.
      * left. destruct (proj1 Ha eq_refl) as (r & Hin & Hs).
        exists r. split; [exact Hin|]. apply search_spec. exact Hs.
      * destruct b.
        -- right. left. destruct (proj1 Hb eq_refl) as (p & Hin & Hs).
           exists p. split; [exact Hin|]. apply str_in_spec. exact Hs.
        -- right. right. apply Hc. exact H.
    + intros H. f_equal.
      destruct H as [(r & Hin & Ho)|[(p & Hin & Hs)|H]].
      * replace a with true; [reflexivity|]. symmetry. apply Ha.
        exists r. split; [exact Hin|]. apply search_spec. exact Ho.
      * replace b with true; [destruct a; reflexivity|]. symmetry. apply Hb.
        exists p. split; [exact Hin|]. apply str_in_spec. exact Hs.
      * replace c with true; [destruct a, b; reflexivity|]. symmetry. apply Hc. exact H.
  - destruct a, b, c; simpl; auto.
Qed.

End DetectorMore.

(** ** [validate_message_safety] *)

Section Validation.
Import PyStr Re Safety SafetyValidation.

(** Both patterns of the validation compile. *)
Lemma compiled_inappropriate_readable :
  compiled_inappropriate = [
    whole_words [phrase ["spam"]; phrase ["advertisement"]; phrase ["buy"; "now"];
                 phrase ["click"; "here"]];
    whole_words [phrase ["hate"]; phrase ["racist"]; phrase ["discrimination"]]
  ].
Proof. vm_compute. reflexivity. Qed.

(** The three findings of the validation of a [str]. *)
Lemma validate_str (s : string) :
  validate_message_safety (PyStr s) =
  let crisis := detect_str s in
  let long := (2000 <? String.length s)%nat in
  let inappropriate := existsb (fun pattern => search pattern s) compiled_inappropriate in
  Ok {| safe := negb crisis;
        crisis_detected := crisis;
        risk_level := if crisis then "high" else "low";
        concerns :=
          ((if crisis then ["Crisis indicators detected"] else []) ++
           (if long then ["Message too long"] else []) ++
           (if inappropriate then ["Potentially inappropriate content"] else []))%list |}.
Proof.
  unfold validate_message_safety. rewrite detect_crisis_str, any_pattern_str.
  cbv beta iota zeta delta [mbind result_bind py_len].
  destruct (detect_str s); destruct (2000 <? String.length s)%nat;
    destruct (existsb (fun pattern => search pattern s) compiled_inappropriate);
    reflexivity.
Qed.

(** X3. On every [str] the validation returns a report in which [safe] is
    the negation of [crisis_detected], which is the verdict of the detector;
    the risk level is "high" exactly on a crisis and "low" otherwise. Hence a
    message that is only too long or inappropriate is still reported safe. *)
Theorem validate_safe_iff_no_crisis (s : string) :
  exists r,
    validate_message_safety (PyStr s) = Ok r /\
    detect_crisis (PyStr s) = Ok (crisis_detected r) /\
    safe r = negb (crisis_detected r) /\
    (risk_level r = "high" <-> crisis_detected r = true) /\
    (risk_level r = "low" <-> crisis_detected r = false) /\
    (In "Crisis indicators detected" (concerns r) <-> crisis_detected r = true).
Proof.
  rewrite validate_str. cbv zeta. eexists. split; [reflexivity|].
  cbn [safe crisis_detected risk_level concerns]. rewrite detect_crisis_str.
  split; [reflexivity|]. split; [reflexivity|].
  destruct (detect_str s); destruct (2000 <? String.length s)%nat;
    destruct (existsb (fun pattern => search pattern s) compiled_inappropriate);
    cbn [app In]; repeat split; intros; try reflexivity; try discriminate;
    repeat match goal with
           | H : _ \/ _ |- _ => destruct H
           | H : False |- _ => destruct H
           end;
    try discriminate; auto.
Qed.

(** X4. The concerns of a report: "Message too long" is listed exactly when
    the message has more than 2000 characters, "Potentially inappropriate
    content" exactly when one of the two patterns matches somewhere in the
    message; a concern is listed once, so there are at most three. *)
Theorem validate_concerns (s : string) :
  exists r,
    validate_message_safety (PyStr s) = Ok r /\
    (In "Message too long" (concerns r) <-> (2000 < String.length s)%nat) /\
    (In "Potentially inappropriate content" (concerns r) <->
       exists pattern, In pattern compiled_inappropriate /\
                       occurs pattern (list_ascii_of_string s)) /\
    List.NoDup (concerns r) /\
    (length (concerns r) <= 3)%nat.
Proof.
  rewrite validate_str. cbv zeta. eexists. split; [reflexivity|].
  cbn [concerns].
  pose proof (existsb_exists (fun pattern => search pattern s) compiled_inappropriate)
    as Hi.
  assert (Hi' : existsb (fun pattern => search pattern s) compiled_inappropriate = true <->
                exists pattern, In pattern compiled_inappropriate /\
                                occurs pattern (list_ascii_of_string s)).
  { rewrite Hi. split; intros (r & Hin & H); exists r; (split; [exact Hin|]);
      apply search_spec; exact H. }
  clear Hi. rewrite <- Hi'. clear Hi'.
  destruct (Nat.ltb_spec 2000 (String.length s)) as [Hl|Hl];
    destruct (detect_str s);
    destruct (existsb (fun pattern => search pattern s) compiled_inappropriate);
    cbn [app In length];
    (split; [|split; [|split; [|lia]]]);
    try (split; intros; intuition (try discriminate; try lia; try reflexivity));
    repeat (constructor; [cbn [In]; intuition discriminate|]); constructor.
Qed.

(** X5. The validation does not share the fail-safe of the detector: on a
    value that is not a [str] the detector answers [False], and the
    validation raises [TypeError] (from [len], or from [re.search] on
    [bytes]). *)
Theorem validate_raises_on_non_str (message : pyobj) :
  (forall s, message <> PyStr s) ->
  detect_crisis message = Ok false /\
  validate_message_safety message = Raise TypeError.
Proof.
  intros Hns. destruct message; try (split; vm_compute; reflexivity).
  exfalso. eapply Hns. reflexivity.
Qed.

(** X5 on [None]. *)
Lemma validate_raises_on_non_str_witness :
  detect_crisis PyNone = Ok false /\ validate_message_safety PyNone = Raise TypeError.
Proof. apply validate_raises_on_non_str. intros s. discriminate. Defined.

End Validation.

(** ** The sentiment chain and the lexicon *)

Section SentimentMore.
Import PyStr Nlp.

(** X6. The sentiment providers are tried in the order Google, HuggingFace,
    lexicon: Google is called when it is configured, HuggingFace only when
    it is configured and Google gave no answer, and the result carries the
    name of the first provider that answered ("basic" when none did), with
    the score and magnitude of Google unchanged when Google answered. *)
Theorem analyze_provider_order (e : env) (text : string) (t : list call) :
  exists r,
    analyze e text t =
      (Ok r,
       (t ++ (match google_client e with Some _ => [GoogleAnalyze text] | None => [] end) ++
             (match answer (google_client e) text, hf_pipeline e with
              | None, Some _ => [HfPipeline text]
              | _, _ => []
              end))%list) /\
    provider r =
      match answer (google_client e) text, answer (hf_pipeline e) text with
      | Some _, _ => "google"
      | None, Some _ => "huggingface"
      | None, None => "basic"
      end /\
    match answer (google_client e) text, answer (hf_pipeline e) text with
    | Some (google_score, google_magnitude), _ =>
        score r = google_score /\ magnitude r = google_magnitude
    | None, Some results =>
        score r = (next_score "POSITIVE" results - next_score "NEGATIVE" results)%float
    | None, None => r = _basic_sentiment text
    end.
Proof.
  unfold analyze, _analyze_with_google, _analyze_with_huggingface, answer.
  destruct (google_client e) as [g|]; destruct (hf_pipeline e) as [h|]; run_monad;
    try destruct (g text) as [[sc mg]|]; try destruct (h text) as [results|];
    eexists; (split; [rewrite <- ?app_assoc, ?app_nil_r; reflexivity|]);
    (split; [first [reflexivity|apply (proj1 (basic_sentiment_cases text))]|]);
    try reflexivity; split; reflexivity.
Qed.

Lemma basic_sentiment_lower (text : string) :
  _basic_sentiment (lower text) = _basic_sentiment text.
Proof. unfold _basic_sentiment. rewrite lower_idem. reflexivity. Qed.

(** X7. The lexicon scorer keeps the ranges of a sentiment result: its score
    is -0.7, 0.0 or 0.7, hence within [-1, 1], its magnitude and confidence
    are within [0, 1], its label is one of the three labels; and it does not
    see the case of the text. *)
Theorem basic_sentiment_ranges (text : string) :
  let r := _basic_sentiment text in
  (score r = (-0.7)%float \/ score r = 0.0%float \/ score r = 0.7%float) /\
  ((-1.0 <=? score r)%float = true /\ (score r <=? 1.0)%float = true) /\
  ((0.0 <=? magnitude r)%float = true /\ (magnitude r <=? 1.0)%float = true) /\
  ((0.0 <=? confidence r)%float = true /\ (confidence r <=? 1.0)%float = true) /\
  (label r = "negative" \/ label r = "neutral" \/ label r = "positive") /\
  _basic_sentiment (lower text) = r.
Proof.
  cbv zeta. split; [|split; [|split; [|split; [|split]]]];
    try apply basic_sentiment_lower;
    unfold _basic_sentiment;
    destruct (_ <? _)%nat; [|destruct (_ <? _)%nat| |destruct (_ <? _)%nat
                            | |destruct (_ <? _)%nat| |destruct (_ <? _)%nat
                            | |destruct (_ <? _)%nat];
    vm_compute; auto.
Qed.

End SentimentMore.

(** ** The prompt and the reply *)

Section ReplyMore.
Import PyStr Nlp Llm.

Lemma append_cons (x : ascii) (a b : string) : String x a +:+ b = String x (a +:+ b).
Proof. reflexivity. Qed.

Lemma append_empty_l (a : string) : "" +:+ a = a.
Proof. reflexivity. Qed.

Lemma append_assoc (a b c : string) : (a +:+ b) +:+ c = a +:+ (b +:+ c).
Proof.
  induction a as [|x a IH]; [reflexivity|]. rewrite !append_cons, IH. reflexivity.
Qed.

Lemma append_empty_r (a : string) : a +:+ "" = a.
Proof. induction a as [|x a IH]; [reflexivity|]. rewrite append_cons, IH. reflexivity. Qed.

Lemma substring_refl (w : string) : substring w w.
Proof. exists "", "". rewrite append_empty_l, append_empty_r. reflexivity. Qed.

Lemma substring_app_l (w a b : string) : substring w a -> substring w (a +:+ b).
Proof.
  intros (x & y & ->). exists x, (y +:+ b). rewrite !append_assoc. reflexivity.
Qed.

Lemma substring_app_r (w a b : string) : substring w b -> substring w (a +:+ b).
Proof.
  intros (x & y & ->). exists (a +:+ x), y. rewrite !append_assoc. reflexivity.
Qed.

Lemma substring_trans (a b c : string) : substring a b -> substring b c -> substring a c.
Proof.
  intros (x & y & ->) (x' & y' & ->). exists (x' +:+ x), (y +:+ y').
  rewrite !append_assoc. reflexivity.
Qed.

(** A part of a joined text occurs in it. *)
Lemma substring_join (sep p : string) (parts : list string) :
  In p parts -> substring p (join sep parts).
Proof.
  induction parts as [|q parts IH]; [intros []|].
  intros [->|Hin].
  - destruct parts as [|q' parts]; cbn [join]; [apply substring_refl|].
    apply substring_app_l, substring_refl.
  - destruct parts as [|q' parts]; [destruct Hin|]. cbn [join].
    apply substring_app_r, substring_app_r, IH, Hin.
Qed.

(** The prompt contains the current message. *)
Lemma build_context_has_message (e : env) (current_message : string)
    (conversation_history : list Msg.t) (s : SentimentResult) :
  substring ("Current user message: " +:+ current_message)
    (_build_context e current_message conversation_history s).
Proof.
  unfold _build_context. eapply substring_trans; [|apply substring_join].
  - apply substring_app_r, substring_refl.
  - apply in_or_app. right. left. reflexivity.
Qed.

(** X8. The prompt built for the generation back ends always contains the
    current message, the label and the formatted confidence; it contains
    each of the last 4 entries of the history it is given, tagged "User" for
    the role "user" and "Assistant" for any other role, under the heading
    "Recent conversation:"; and it carries the note on negative emotions
    when the score is below -0.3. *)
Theorem build_context_contents (e : env) (current_message : string)
    (conversation_history : list Msg.t) (s : SentimentResult) :
  let context := _build_context e current_message conversation_history s in
  substring ("Current user message: " +:+ current_message) context /\
  substring ("Detected sentiment: " +:+ label s +:+ " (confidence: " +:+
             format_2f e (confidence s) +:+ ")") context /\
  (forall msg, In msg (last_n 4 conversation_history) ->
     substring ((if String.eqb (Msg.role msg) "user" then "User" else "Assistant")
                +:+ ": " +:+ Msg.content msg) context) /\
  (conversation_history <> [] -> substring "Recent conversation:" context) /\
  ((score s <? -0.3)%float = true ->
     substring "Note: User seems to be experiencing negative emotions." context).
Proof.
  cbv zeta. split; [apply build_context_has_message|]. unfold _build_context.
  repeat match goal with |- _ /\ _ => split end.
  - apply substring_join. apply in_or_app. right. right. left. reflexivity.
  - intros msg Hin. apply substring_join. apply in_or_app. left.
    destruct conversation_history as [|m0 rest].
    + destruct Hin.
    + right. apply in_map_iff. exists msg. split; [reflexivity|exact Hin].
  - intros Hne. apply substring_join. apply in_or_app. left.
    destruct conversation_history as [|m0 rest]; [congruence|]. left. reflexivity.
  - intros Hs. rewrite Hs.
    eapply substring_trans; [|apply substring_join].
    + apply substring_app_r.
      exists "", " Provide extra validation and gentle coping suggestions.".
      reflexivity.
    + apply in_or_app. right. apply in_or_app. right. apply in_or_app. left.
      left. reflexivity.
Qed.

(** X8 on the history and the sentiment of the repository's test. *)
Lemma build_context_contents_witness :
  substring "User: I'm feeling sad"
    (_build_context offline "I need help"
       [{| Msg.role := "user"; Msg.content := "I'm feeling sad"; Msg.timestamp := "" |};
        {| Msg.role := "assistant"; Msg.content := "I understand you're feeling sad";
           Msg.timestamp := "" |}]
       (_basic_sentiment "I'm feeling sad")) /\
  substring "Note: User seems to be experiencing negative emotions."
    (_build_context offline "I need help"
       [{| Msg.role := "user"; Msg.content := "I'm feeling sad"; Msg.timestamp := "" |};
        {| Msg.role := "assistant"; Msg.content := "I understand you're feeling sad";
           Msg.timestamp := "" |}]
       (_basic_sentiment "I'm feeling sad")).
Proof.
  destruct (build_context_contents offline "I need help"
              [{| Msg.role := "user"; Msg.content := "I'm feeling sad"; Msg.timestamp := "" |};
               {| Msg.role := "assistant"; Msg.content := "I understand you're feeling sad";
                  Msg.timestamp := "" |}]
              (_basic_sentiment "I'm feeling sad")) as (_ & _ & Hm & _ & Hn).
  split.
  - apply (Hm {| Msg.role := "user"; Msg.content := "I'm feeling sad"; Msg.timestamp := "" |}).
    left. reflexivity.
  - apply Hn. vm_compute. reflexivity.
Defined.

(** X9. [generate_response] appends at most one call to the calls made, a
    call to a generation back end, and the text that this call carries
    contains the system prompt and the current message of the user. *)
Theorem generate_response_prompt (e : env) (current_message : string)
    (conversation_history : list Msg.t) (s : SentimentResult) (t : list call) :
  exists text new,
    generate_response e current_message conversation_history s t =
      (Ok text, (t ++ new)%list) /\
    (length new <= 1)%nat /\
    forall c, In c new ->
      is_llm_call c = true /\
      substring SYSTEM_PROMPT (prompt_of c) /\
      substring ("Current user message: " +:+ current_message) (prompt_of c).
Proof.
  rewrite generate_response_spec.
  pose proof (build_context_has_message e current_message conversation_history s)
    as Hmsg.
  unfold selected_client.
  set (context := _build_context e current_message conversation_history s) in *.
  assert (Hcall : forall c,
            c = OpenAIChat SYSTEM_PROMPT context \/
            c = AnthropicMessages (SYSTEM_PROMPT +:+ nl +:+ nl +:+ context) \/
            c = GeminiGenerate (SYSTEM_PROMPT +:+ nl +:+ nl +:+ context) ->
            is_llm_call c = true /\
            substring SYSTEM_PROMPT (prompt_of c) /\
            substring ("Current user message: " +:+ current_message) (prompt_of c)).
  { intros c [->|[->| ->]]; cbn [is_llm_call prompt_of];
      (split; [reflexivity|split]);
      try (apply substring_app_l, substring_refl);
      repeat apply substring_app_r; exact Hmsg. }
  destruct (openai_client e) as [o|]; [|destruct (anthropic_client e) as [a|];
    [|destruct (gemini_client e) as [g|]]].
  - destruct (o SYSTEM_PROMPT context); eexists; eexists;
      (split; [reflexivity|]); (split; [cbn [length]; lia|]);
      intros c [<-|[]]; apply Hcall; auto.
  - destruct (a _); eexists; eexists;
      (split; [reflexivity|]); (split; [cbn [length]; lia|]);
      intros c [<-|[]]; apply Hcall; auto.
  - destruct (g _); eexists; eexists;
      (split; [reflexivity|]); (split; [cbn [length]; lia|]);
      intros c [<-|[]]; apply Hcall; auto.
  - exists (_fallback_response s), []. rewrite app_nil_r.
    split; [reflexivity|]. split; [cbn [length]; lia|]. intros c [].
Qed.

(** X9 with a back end that echoes its prompt. *)
Lemma generate_response_prompt_witness :
  exists text c,
    generate_response openai_echo "I need help" [] (_basic_sentiment "I need help") [] =
      (Ok text, [c]) /\
    substring "Current user message: I need help" (prompt_of c).
Proof.
  destruct (generate_response_prompt openai_echo "I need help" []
              (_basic_sentiment "I need help") []) as (text & new & H & _ & Hc).
  rewrite generate_response_spec in H. cbn in H. injection H as <- <-.
  eexists. eexists. split; [rewrite generate_response_spec; reflexivity|].
  apply Hc. left. reflexivity.
Defined.

(** *** [strip] *)

Lemma rstrip_keeps_head (c : ascii) (s : string) :
  isspace_char c = false -> exists r, rstrip (String c s) = String c r.
Proof.
  intros Hc. cbn [rstrip]. destruct (rstrip s); [rewrite Hc|]; eauto.
Qed.

Lemma lstrip_head (s : string) :
  lstrip s = "" \/ exists c r, lstrip s = String c r /\ isspace_char c = false.
Proof.
  induction s as [|c s IH]; cbn [lstrip]; [left; reflexivity|].
  destruct (isspace_char c) eqn:Hc; [exact IH|]. right. eauto.
Qed.

Lemma lstrip_no_space (c : ascii) (s : string) :
  isspace_char c = false -> lstrip (String c s) = String c s.
Proof. intros Hc. cbn [lstrip]. rewrite Hc. reflexivity. Qed.

Lemma rstrip_idem (s : string) : rstrip (rstrip s) = rstrip s.
Proof.
  induction s as [|c s IH]; [reflexivity|]. cbn [rstrip].
  destruct (rstrip s) as [|c' r] eqn:Hr.
  - destruct (isspace_char c) eqn:Hc; [reflexivity|]. cbn [rstrip]. rewrite Hc. reflexivity.
  - cbn [rstrip]. cbn [rstrip] in IH. 
    destruct (rstrip r) as [|c'' r'] eqn:Hr'.
    + destruct (isspace_char c') eqn:Hc'; [discriminate|]. rewrite IH. reflexivity.
    + rewrite IH. reflexivity.
Qed.

Lemma strip_idem (s : string) : strip (strip s) = strip s.
Proof.
  unfold strip. destruct (lstrip_head s) as [->|(c & r & -> & Hc)]; [reflexivity|].
  destruct (rstrip_keeps_head c r Hc) as [r' Hr']. rewrite Hr'.
  rewrite (lstrip_no_space c r' Hc), <- Hr'. apply rstrip_idem.
Qed.

Lemma rstrip_last (s : string) (c : ascii) :
  last_char (rstrip s) = Some c -> isspace_char c = false.
Proof.
  unfold last_char. revert c. induction s as [|x s IH]; intros c; [discriminate|].
  cbn [rstrip]. destruct (rstrip s) as [|c' r] eqn:Hr.
  - destruct (isspace_char x) eqn:Hx; [discriminate|].
    cbn. intros H. injection H as <-. exact Hx.
  - cbn [list_ascii_of_string]. rewrite last_cons.
    cbn [list_ascii_of_string] in IH.
    destruct (last (c' :: list_ascii_of_string r)) as [y|] eqn:Hl.
    + intros H. injection H as <-. apply IH. reflexivity.
    + apply last_None in Hl. discriminate.
Qed.

Lemma strip_first (s : string) (c : ascii) :
  first_char (strip s) = Some c -> isspace_char c = false.
Proof.
  unfold strip, first_char.
  destruct (lstrip_head s) as [->|(x & r & -> & Hx)]; [discriminate|].
  destruct (rstrip_keeps_head x r Hx) as [r' ->]. cbn.
  intros H. injection H as <-. exact Hx.
Qed.

(** X10. The reply that [generate_response] returns has no white space at
    its ends, whether it comes from a back end or from the canned replies:
    stripping it again changes nothing, and neither its first nor its last
    character is a white-space character. *)
Theorem generate_response_is_stripped (e : env) (current_message : string)
    (conversation_history : list Msg.t) (s : SentimentResult) (t : list call) :
  exists text t',
    generate_response e current_message conversation_history s t = (Ok text, t') /\
    strip text = text /\
    (forall c, first_char text = Some c -> isspace_char c = false) /\
    (forall c, last_char text = Some c -> isspace_char c = false).
Proof.
  assert (Hs : forall x, strip (strip x) = strip x /\
             (forall c, first_char (strip x) = Some c -> isspace_char c = false) /\
             (forall c, last_char (strip x) = Some c -> isspace_char c = false)).
  { intros x. split; [apply strip_idem|]. split; [apply strip_first|].
    unfold strip. apply rstrip_last. }
  assert (Hf : strip (_fallback_response s) = _fallback_response s).
  { rewrite fallback_response_by_label.
    destruct (String.eqb _ _); [vm_compute; reflexivity|].
    destruct (String.eqb _ _); vm_compute; reflexivity. }
  assert (Hf' : strip (_fallback_response s) = _fallback_response s /\
             (forall c, first_char (_fallback_response s) = Some c -> isspace_char c = false) /\
             (forall c, last_char (_fallback_response s) = Some c -> isspace_char c = false)).
  { destruct (Hs (_fallback_response s)) as (_ & H2 & H3). rewrite Hf in H2, H3.
    split; [exact Hf|]. split; assumption. }
  rewrite generate_response_spec.
  destruct (selected_client _ _) as [[c [text|]]|]; eexists; eexists;
    (split; [reflexivity|]); first [apply Hs|exact Hf'].
Qed.

End ReplyMore.

(** ** The handler and the conversation store *)

Section HandlerMore.
Import PyStr Main.

(** A response of the handler comes from one of its two branches. *)
Lemma chat_ok_cases (sv : services) (now : string) (request : ChatRequest.t)
    (w : world) (resp : ChatResponse.t) (w' : world) :
  chat sv now request w = (Ok resp, w') ->
  exists s t,
    (resp = crisis_response now request s /\ w' = recorded_world w now request t) \/
    (exists text, resp = normal_response now request s text /\
                  w' = replied_world w now request text t).
Proof.
  destruct (analyze sv (ChatRequest.message request) (calls w)) as [[s|err] t1] eqn:Ha.
  2:{ rewrite (chat_analyze_raises _ _ _ _ _ _ Ha). discriminate. }
  destruct (detect_crisis sv (PyStr (ChatRequest.message request)) t1)
    as [[[]|err] t2] eqn:Hd.
  - rewrite (chat_crisis_branch _ _ _ _ _ _ _ Ha Hd).
    destruct (logger_db sv) as [log_conversation|].
    + destruct (log_conversation _ s true "high" t2) as [[[]|err] t3];
        intros H; [|discriminate]. injection H as <- <-. exists s, t3. left. auto.
    + intros H. injection H as <- <-. exists s, t2. left. auto.
  - rewrite (chat_normal_branch _ _ _ _ _ _ _ Ha Hd).
    destruct (generate_response sv _ _ s t2) as [[text|err] t3]; [|discriminate].
    destruct (logger_db sv) as [log_conversation|].
    + destruct (log_conversation _ s false _ t3) as [[[]|err] t4];
        intros H; [|discriminate]. injection H as <- <-. exists s, t4. right. eauto.
    + intros H. injection H as <- <-. exists s, t3. right. eauto.
  - rewrite (chat_detect_raises _ _ _ _ _ _ _ _ Ha Hd). discriminate.
Qed.

Lemma window_lookup (w : world) (id : string) (h : list Msg.t) :
  conversations w !! id = Some h -> window w id = h.
Proof. unfold window. intros ->. reflexivity. Qed.

(** X11. The handler changes the history of the conversation of its request
    and of no other: under any other id the store holds what it held
    before, whatever the components do and whether the handler returns or
    raises. *)
Theorem chat_leaves_other_conversations (sv : services) (now : string)
    (request : ChatRequest.t) (w : world) (other : string) :
  other <> conversation_id_of request now ->
  conversations (snd (chat sv now request w)) !! other = conversations w !! other.
Proof.
  intros Hne. destruct (chat_window sv now request w) as (tail & t & -> & _).
  cbn [conversations]. apply lookup_insert_ne. congruence.
Qed.

(** X11 for two conversations. *)
Lemma chat_leaves_other_conversations_witness :
  conversations
    (snd (chat (production offline) "2024-05-01T10:01:00" (request_in "b" "Hi there")
            (snd (chat (production offline) "2024-05-01T10:00:00"
                    (request_in "a" "Hello") empty_world)))) !! "a" =
  conversations
    (snd (chat (production offline) "2024-05-01T10:00:00"
            (request_in "a" "Hello") empty_world)) !! "a".
Proof. apply chat_leaves_other_conversations. vm_compute. discriminate. Defined.

Lemma chat_keeps_bound (sv : services) (now : string) (request : ChatRequest.t)
    (w : world) :
  windows_bounded 7 w -> windows_bounded 7 (snd (chat sv now request w)).
Proof.
  intros Hb id.
  destruct (String.eqb_spec id (conversation_id_of request now)) as [->|Hne].
  - apply chat_window_at_most_seven.
  - destruct (chat_window sv now request w) as (tail & t & -> & _).
    rewrite window_insert_ne by congruence. apply Hb.
Qed.

Lemma serve_cons (sv : services) (now : string) (request : ChatRequest.t)
    (rest : list (string * ChatRequest.t)) (w : world) :
  snd (serve sv ((now, request) :: rest) w) =
  snd (serve sv rest (snd (chat sv now request w))).
Proof.
  cbn [serve]. destruct (chat sv now request w) as [r w']. cbn [snd].
  destruct (serve sv rest w') as [rs w'']. reflexivity.
Qed.

(** X12. However many requests are served, on whatever conversations and
    with whatever components, no stored window ever holds more than 7
    entries, provided none did at the start (as in the empty store). *)
Theorem serve_keeps_windows_bounded (sv : services)
    (requests : list (string * ChatRequest.t)) (w : world) :
  windows_bounded 7 w -> windows_bounded 7 (snd (serve sv requests w)).
Proof.
  revert w. induction requests as [|[now request] rest IH]; intros w Hb.
  - exact Hb.
  - rewrite serve_cons. apply IH, chat_keeps_bound, Hb.
Qed.

(** X12 from the empty store. *)
Lemma serve_keeps_windows_bounded_witness :
  windows_bounded 7
    (snd (serve (production offline)
            [("2024-05-01T10:00:00", request_in "a" "Hello");
             ("2024-05-01T10:01:00", request_in "a" "I want to end my life")]
            empty_world)).
Proof.
  apply serve_keeps_windows_bounded. intros id. unfold window, empty_world.
  cbn [conversations]. rewrite lookup_empty. cbn. lia.
Defined.

(** X13. When the handler returns a response, the response carries the id
    of the request, or "conv_" followed by the time stamp when the request
    has no id or an empty one, and [get_conversation] on the id of the
    response then succeeds, without changing the state, with a history that
    contains the user message of the request. *)
Theorem chat_then_get_conversation (sv : services) (now : string)
    (request : ChatRequest.t) (w : world) (resp : ChatResponse.t) (w' : world) :
  chat sv now request w = (Ok resp, w') ->
  ChatResponse.conversation_id resp =
    match ChatRequest.conversation_id request with
    | Some (String c id) => String c id
    | _ => "conv_" +:+ now
    end /\
  ChatResponse.timestamp resp = now /\
  exists history,
    get_conversation (ChatResponse.conversation_id resp) w' = (Ok history, w') /\
    In (user_entry now request) history.
Proof.
  intros H. destruct (chat_ok_cases _ _ _ _ _ _ H) as (s & t & [[-> ->]|(text & -> & ->)]).
  - cbn [crisis_response ChatResponse.conversation_id ChatResponse.timestamp].
    split; [|split; [reflexivity|]].
    + unfold conversation_id_of.
      destruct (ChatRequest.conversation_id request) as [[|c id]|]; reflexivity.
    + exists (recorded w now request). unfold get_conversation, recorded_world.
      cbn [conversations]. rewrite lookup_insert_eq. split; [reflexivity|].
      rewrite recorded_snoc. apply in_or_app. right. left. reflexivity.
  - cbn [normal_response ChatResponse.conversation_id ChatResponse.timestamp].
    split; [|split; [reflexivity|]].
    + unfold conversation_id_of.
      destruct (ChatRequest.conversation_id request) as [[|c id]|]; reflexivity.
    + exists (recorded w now request ++ [assistant_entry now text])%list.
      unfold get_conversation, replied_world.
      cbn [conversations]. rewrite lookup_insert_eq. split; [reflexivity|].
      rewrite recorded_snoc. apply in_or_app. left. apply in_or_app. right.
      left. reflexivity.
Qed.

(** X13 for a request without an id. *)
Lemma chat_then_get_conversation_witness :
  exists resp w' history,
    chat (production offline) "2024-05-01T10:00:00"
      {| ChatRequest.message := "Hello"; ChatRequest.conversation_id := None;
         ChatRequest.user_id := None |} empty_world = (Ok resp, w') /\
    ChatResponse.conversation_id resp = "conv_2024-05-01T10:00:00" /\
    get_conversation "conv_2024-05-01T10:00:00" w' = (Ok history, w').
Proof.
  destruct (production_total offline "2024-05-01T10:00:00"
              {| ChatRequest.message := "Hello"; ChatRequest.conversation_id := None;
                 ChatRequest.user_id := None |} empty_world) as (resp & w' & H).
  destruct (chat_then_get_conversation _ _ _ _ _ _ H) as (Hid & _ & history & Hg & _).
  vm_compute in Hid.
  exists resp, w', history. split; [exact H|]. split; [exact Hid|].
  rewrite <- Hid. exact Hg.
Defined.

(** X14. On a response that is not a crisis response, the stored history
    ends with the user message followed by the reply, the stored reply is
    the text of the response, and both entries carry the time stamp of the
    response. *)
Theorem chat_stores_the_reply (sv : services) (now : string)
    (request : ChatRequest.t) (w : world) (resp : ChatResponse.t) (w' : world) :
  chat sv now request w = (Ok resp, w') ->
  ChatResponse.crisis_detected resp = false ->
  exists older,
    window w' (ChatResponse.conversation_id resp) =
      (older ++
       [{| Msg.role := "user"; Msg.content := ChatRequest.message request;
           Msg.timestamp := ChatResponse.timestamp resp |};
        {| Msg.role := "assistant"; Msg.content := ChatResponse.response resp;
           Msg.timestamp := ChatResponse.timestamp resp |}])%list /\
    ChatResponse.resources resp = Some general_resources.
Proof.
  intros H Hc.
  destruct (chat_ok_cases _ _ _ _ _ _ H) as (s & t & [[-> ->]|(text & -> & ->)]);
    [discriminate Hc|].
  cbn [normal_response ChatResponse.conversation_id ChatResponse.timestamp
       ChatResponse.response ChatResponse.resources].
  exists (last_n 5 (window w (conversation_id_of request now))).
  split; [|reflexivity].
  unfold replied_world. rewrite window_insert, recorded_snoc, <- app_assoc. reflexivity.
Qed.

(** X14 on the first message of a conversation. *)
Lemma chat_stores_the_reply_witness :
  exists resp w',
    chat (production offline) "2024-05-01T10:00:00" (request_in "a" "Hello") empty_world =
      (Ok resp, w') /\
    map Msg.role (window w' "a") = ["user"; "assistant"].
Proof.
  destruct (production_total offline "2024-05-01T10:00:00" (request_in "a" "Hello")
              empty_world) as (resp & w' & H).
  exists resp, w'. split; [exact H|].
  destruct (chat_stores_the_reply _ _ _ _ _ _ H) as (older & Hw & _).
  - revert H. vm_compute. intros H. injection H as <- _. reflexivity.
  - revert H Hw. vm_compute. intros H. injection H as <- <-. reflexivity.
Defined.

(** X15. [clear_conversation] forgets one conversation: on an id of the
    store it removes that history and leaves every other one, after which
    [get_conversation] and a second [clear_conversation] on the id answer
    404, and the next request on the id starts its window from the user
    message alone; on an id that is not in the store it answers 404 and
    changes nothing. *)
Theorem clear_conversation_forgets (w : world) (id : string) :
  match conversations w !! id with
  | Some _ =>
      exists w',
        clear_conversation id w = (Ok tt, w') /\
        calls w' = calls w /\
        (forall other, other <> id -> conversations w' !! other = conversations w !! other) /\
        get_conversation id w' = (Raise (HTTPException 404 "Conversation not found"), w') /\
        clear_conversation id w' = (Raise (HTTPException 404 "Conversation not found"), w') /\
        (forall now request, conversation_id_of request now = id ->
           recorded w' now request = [user_entry now request])
  | None =>
      clear_conversation id w = (Raise (HTTPException 404 "Conversation not found"), w) /\
      get_conversation id w = (Raise (HTTPException 404 "Conversation not found"), w)
  end.
Proof.
  unfold clear_conversation, get_conversation.
  destruct (conversations w !! id) as [h|] eqn:E; [|split; reflexivity].
  eexists. split; [reflexivity|]. cbn [calls conversations].
  rewrite lookup_delete_eq.
  split; [reflexivity|]. split; [|split; [reflexivity|split; [reflexivity|]]].
  - intros other Hne. apply lookup_delete_ne. congruence.
  - intros now request Hid. unfold recorded, window. rewrite Hid.
    cbn [conversations]. rewrite lookup_delete_eq. reflexivity.
Qed.

(** *** The components of the repository *)

Lemma analyze_appends (e : env) (text : string) (t : list call) :
  exists s extra,
    Nlp.analyze e text t = (Ok s, (t ++ extra)%list) /\
    db_calls extra = [] /\ llm_calls extra = [].
Proof.
  unfold Nlp.analyze, Nlp._analyze_with_google, Nlp._analyze_with_huggingface.
  destruct (google_client e) as [g|]; destruct (hf_pipeline e) as [h|]; run_monad;
    try destruct (g text) as [[sc mg]|]; try destruct (h text) as [results|];
    eexists; eexists;
    (split; [rewrite <- ?app_assoc; try reflexivity;
             rewrite <- (app_nil_r t) at 1; reflexivity|]);
    split; reflexivity.
Qed.

Lemma log_record_spec (e : env) (id : string) (s : SentimentResult) (crisis : bool)
    (severity : string) (t : list call) :
  match logger_db (production e) with
  | None => log_record e id s crisis severity = []
  | Some log_conversation =>
      log_conversation id s crisis severity t =
      (Ok tt, (t ++ log_record e id s crisis severity)%list)
  end.
Proof.
  unfold production, log_record. cbn [logger_db].
  destruct (logging_enabled e); [apply log_conversation_total|reflexivity].
Qed.

(** The outcome of the handler with the components of the repository. *)
Lemma production_chat_spec (e : env) (now : string) (request : ChatRequest.t) (w : world) :
  let message := ChatRequest.message request in
  let id := conversation_id_of request now in
  exists s t1 text t3,
    Nlp.analyze e message (calls w) = (Ok s, t1) /\
    Llm.generate_response e message (last_n 3 (recorded w now request)) s t1 =
      (Ok text, t3) /\
    chat (production e) now request w =
      if Safety.detect_str message
      then (Ok (crisis_response now request s),
            recorded_world w now request
              (t1 ++ log_record e id s true "high")%list)
      else (Ok (normal_response now request s text),
            replied_world w now request text
              (t3 ++ log_record e id s false
                       (if (score s <? -0.5)%float then "medium" else "low"))%list).
Proof.
  cbv zeta.
  destruct (analyze_total e (ChatRequest.message request) (calls w))
    as (s & t1 & Ha & _).
  destruct (generate_response_total e (ChatRequest.message request)
              (last_n 3 (recorded w now request)) s t1) as (text & t3 & Hg).
  exists s, t1, text, t3. split; [exact Ha|]. split; [exact Hg|].
  destruct (Safety.detect_str (ChatRequest.message request)) eqn:Hc.
  - assert (Hd : detect_crisis (production e) (PyStr (ChatRequest.message request)) t1
                 = (Ok true, t1)) by (rewrite production_detect, Hc; reflexivity).
    rewrite (chat_crisis_branch (production e) now request w s t1 t1 Ha Hd).
    pose proof (log_record_spec e (conversation_id_of request now) s true "high" t1) as Hl.
    destruct (logger_db (production e)) as [log_conversation|].
    + rewrite Hl. reflexivity.
    + rewrite Hl, app_nil_r. reflexivity.
  - assert (Hd : detect_crisis (production e) (PyStr (ChatRequest.message request)) t1
                 = (Ok false, t1)) by (rewrite production_detect, Hc; reflexivity).
    rewrite (chat_normal_branch (production e) now request w s t1 t1 Ha Hd).
    change (generate_response (production e)) with (Llm.generate_response e).
    rewrite Hg.
    pose proof (log_record_spec e (conversation_id_of request now) s false
                  (if (score s <? -0.5)%float then "medium" else "low") t3) as Hl.
    destruct (logger_db (production e)) as [log_conversation|].
    + rewrite Hl. reflexivity.
    + rewrite Hl, app_nil_r. reflexivity.
Qed.

(** C9. With its own analyzer, detector, reply generator and logger the
    handler returns a response for every message, in every state and
    whatever the external services do: it never raises. Every fault on the
    way is turned into the fallback of the component it occurs in.
    Detection: the detector answers the flag of the response, and [False]
    where its body raises. Scoring: the sentiment of the response is the
    result of [analyze], which is the lexicon result when no provider
    answers. Generation: when the response is not the crisis response its
    text is the stripped answer of the selected back end, and the canned
    reply for the label, which is not empty, when that back end fails or
    none is configured. Logging: whether the database accepts the record
    changes nothing. *)
Theorem chat_never_raises (e : env) (now : string) (request : ChatRequest.t)
    (w : world) :
  exists (resp : ChatResponse.t) (w' : world),
    chat (production e) now request w = (Ok resp, w') /\
    Safety.detect_crisis (PyStr (ChatRequest.message request)) =
      Ok (ChatResponse.crisis_detected resp) /\
    (forall (value : pyobj) (err : exn),
        Safety.detect_crisis_body value = Raise err ->
        Safety.detect_crisis value = Ok false) /\
    (exists t1,
        Nlp.analyze e (ChatRequest.message request) (calls w) =
          (Ok (ChatResponse.sentiment resp), t1)) /\
    (unavailable (google_client e) (ChatRequest.message request) ->
     unavailable (hf_pipeline e) (ChatRequest.message request) ->
     ChatResponse.sentiment resp = Nlp._basic_sentiment (ChatRequest.message request)) /\
    (ChatResponse.crisis_detected resp = false ->
     match selected_client e
             (Llm._build_context e (ChatRequest.message request)
                (last_n 3 (recorded w now request)) (ChatResponse.sentiment resp)) with
     | Some (_, Some text) => ChatResponse.response resp = strip text
     | _ =>
         ChatResponse.response resp = Llm._fallback_response (ChatResponse.sentiment resp) /\
         ChatResponse.response resp <> ""
     end) /\
    (forall available : bool,
        chat (production (with_db available e)) now request w =
        chat (production e) now request w).
Proof.
  destruct (production_chat_spec e now request w) as (s & t1 & text & t3 & Ha & Hg & H).
  assert (Hdb : forall available : bool,
            chat (production (with_db available e)) now request w =
            chat (production e) now request w).
  { intros available.
    destruct (production_chat_spec (with_db available e) now request w)
      as (s' & t1' & text' & t3' & Ha' & Hg' & H').
    change (Nlp.analyze (with_db available e)) with (Nlp.analyze e) in Ha'.
    rewrite Ha in Ha'. injection Ha' as <- <-.
    change (Llm.generate_response (with_db available e))
      with (Llm.generate_response e) in Hg'.
    rewrite Hg in Hg'. injection Hg' as <- <-.
    rewrite H, H'. reflexivity. }
  assert (Hbody : forall (value : pyobj) (err : exn),
            Safety.detect_crisis_body value = Raise err ->
            Safety.detect_crisis value = Ok false).
  { intros value err Hraise. unfold Safety.detect_crisis, rtry.
    rewrite Hraise. reflexivity. }
  assert (Hlex : unavailable (google_client e) (ChatRequest.message request) ->
                 unavailable (hf_pipeline e) (ChatRequest.message request) ->
                 s = Nlp._basic_sentiment (ChatRequest.message request)).
  { intros Hgo Hhf.
    destruct (analyze_unavailable e (ChatRequest.message request) (calls w) Hgo Hhf)
      as (t' & Ha').
    rewrite Ha in Ha'. injection Ha' as -> _. reflexivity. }
  rewrite detect_crisis_str.
  rewrite generate_response_spec in Hg.
  destruct (Safety.detect_str (ChatRequest.message request)).
  - eexists. eexists. split; [exact H|].
    cbn [crisis_response ChatResponse.crisis_detected ChatResponse.sentiment
         ChatResponse.response].
    split; [reflexivity|]. split; [exact Hbody|]. split; [exists t1; exact Ha|].
    split; [exact Hlex|]. split; [discriminate|exact Hdb].
  - eexists. eexists. split; [exact H|].
    cbn [normal_response ChatResponse.crisis_detected ChatResponse.sentiment
         ChatResponse.response].
    split; [reflexivity|]. split; [exact Hbody|]. split; [exists t1; exact Ha|].
    split; [exact Hlex|]. split; [|exact Hdb].
    intros _.
    destruct (selected_client e _) as [[c [reply|]]|]; injection Hg as <- _;
      try reflexivity; (split; [reflexivity|apply fallback_response_nonempty]).
Qed.

(** X16. The crisis flag of a response is the verdict of the detector on
    the message of the request alone: it does not depend on the stored
    history, on the clock or on what the external services answer; and the
    resources of the response are the crisis list exactly on a crisis and
    the general list otherwise, never absent. *)
Theorem crisis_flag_is_stateless (e : env) (now : string) (request : ChatRequest.t)
    (w : world) :
  exists resp w',
    chat (production e) now request w = (Ok resp, w') /\
    Safety.detect_crisis (PyStr (ChatRequest.message request)) =
      Ok (ChatResponse.crisis_detected resp) /\
    ChatResponse.resources resp =
      Some (if ChatResponse.crisis_detected resp then crisis_resources
            else general_resources).
Proof.
  destruct (production_chat_spec e now request w) as (s & t1 & text & t3 & _ & _ & H).
  rewrite detect_crisis_str.
  destruct (Safety.detect_str (ChatRequest.message request));
    eexists; eexists; (split; [exact H|]); split; reflexivity.
Qed.

(** X17. With logging enabled every answered request writes one record to
    the database, after its other calls, with the id of the conversation,
    the sentiment and the crisis flag of the response and the severity
    "high" on a crisis, "medium" on a score below -0.5 and "low" otherwise;
    with logging disabled it writes none. Whether the database accepts the
    record changes nothing in the outcome of the handler. *)
Theorem chat_logs_one_record (e : env) (now : string) (request : ChatRequest.t)
    (w : world) :
  exists resp w' others,
    chat (production e) now request w = (Ok resp, w') /\
    calls w' =
      (calls w ++ others ++
       (if logging_enabled e
        then [DbInsert (ChatResponse.conversation_id resp) (ChatResponse.sentiment resp)
                (ChatResponse.crisis_detected resp)
                (severity_of (ChatResponse.crisis_detected resp)
                   (ChatResponse.sentiment resp))]
        else []))%list /\
    db_calls others = [] /\
    forall available : bool,
      chat (production (with_db available e)) now request w =
      chat (production e) now request w.
Proof.
  destruct (production_chat_spec e now request w) as (s & t1 & text & t3 & Ha & Hg & H).
  assert (Hdb : forall available : bool,
            chat (production (with_db available e)) now request w =
            chat (production e) now request w).
  { intros available.
    destruct (production_chat_spec (with_db available e) now request w)
      as (s' & t1' & text' & t3' & Ha' & Hg' & H').
    change (Nlp.analyze (with_db available e)) with (Nlp.analyze e) in Ha'.
    rewrite Ha in Ha'. injection Ha' as <- <-.
    change (Llm.generate_response (with_db available e))
      with (Llm.generate_response e) in Hg'.
    rewrite Hg in Hg'. injection Hg' as <- <-.
    rewrite H, H'. reflexivity. }
  destruct (analyze_appends e (ChatRequest.message request) (calls w))
    as (s0 & extra & Ha0 & Hdb0 & _).
  rewrite Ha in Ha0. injection Ha0 as <- ->.
  rewrite generate_response_spec in Hg.
  unfold log_record in H.
  destruct (Safety.detect_str (ChatRequest.message request)).
  - eexists. eexists. exists extra. split; [exact H|].
    cbn [recorded_world calls crisis_response ChatResponse.conversation_id
         ChatResponse.sentiment ChatResponse.crisis_detected severity_of].
    split; [rewrite <- app_assoc; reflexivity|]. split; [exact Hdb0|exact Hdb].
  - destruct (selected_client e _) as [[c [reply|]]|] eqn:Hsel;
      injection Hg as <- <-.
    + eexists. eexists. exists (extra ++ [c])%list. split; [exact H|].
      cbn [replied_world calls normal_response ChatResponse.conversation_id
           ChatResponse.sentiment ChatResponse.crisis_detected severity_of].
      split; [rewrite <- !app_assoc; reflexivity|]. split; [|exact Hdb].
      unfold db_calls in *. rewrite List.filter_app, Hdb0.
      unfold selected_client in Hsel.
      destruct (openai_client e); [|destruct (anthropic_client e);
        [|destruct (gemini_client e); [|discriminate]]];
        injection Hsel as <- _; reflexivity.
    + eexists. eexists. exists (extra ++ [c])%list. split; [exact H|].
      cbn [replied_world calls normal_response ChatResponse.conversation_id
           ChatResponse.sentiment ChatResponse.crisis_detected severity_of].
      split; [rewrite <- !app_assoc; reflexivity|]. split; [|exact Hdb].
      unfold db_calls in *. rewrite List.filter_app, Hdb0.
      unfold selected_client in Hsel.
      destruct (openai_client e); [|destruct (anthropic_client e);
        [|destruct (gemini_client e); [|discriminate]]];
        injection Hsel as <- _; reflexivity.
    + eexists. eexists. exists extra. split; [exact H|].
      cbn [replied_world calls normal_response ChatResponse.conversation_id
           ChatResponse.sentiment ChatResponse.crisis_detected severity_of].
      split; [rewrite <- !app_assoc; reflexivity|]. split; [exact Hdb0|exact Hdb].
Qed.

(** X18. On a total outage, when no sentiment provider answers and the
    selected generation back end fails or none is configured, a message that
    is not a crisis is still answered: the sentiment is the one of the
    lexicon and the reply is the canned reply for its label, which is not
    empty. *)
Theorem chat_on_total_outage (e : env) (now : string) (request : ChatRequest.t)
    (w : world) :
  let message := ChatRequest.message request in
  unavailable (google_client e) message ->
  unavailable (hf_pipeline e) message ->
  (forall context, match selected_client e context with
                   | Some (_, Some _) => False
                   | _ => True
                   end) ->
  Safety.detect_crisis (PyStr message) = Ok false ->
  exists resp w',
    chat (production e) now request w = (Ok resp, w') /\
    ChatResponse.crisis_detected resp = false /\
    ChatResponse.sentiment resp = Nlp._basic_sentiment message /\
    ChatResponse.response resp = Llm._fallback_response (Nlp._basic_sentiment message) /\
    ChatResponse.response resp <> "".
Proof.
  cbv zeta. intros Hg Hh Hsel Hc. rewrite detect_crisis_str in Hc. injection Hc as Hc.
  destruct (production_chat_spec e now request w) as (s & t1 & text & t3 & Ha & Hgen & H).
  rewrite Hc in H.
  destruct (analyze_unavailable e (ChatRequest.message request) (calls w) Hg Hh)
    as (t' & Ha').
  rewrite Ha in Ha'. injection Ha' as -> _.
  rewrite generate_response_spec in Hgen.
  specialize (Hsel (Llm._build_context e (ChatRequest.message request)
                      (last_n 3 (recorded w now request))
                      (Nlp._basic_sentiment (ChatRequest.message request)))).
  destruct (selected_client e _) as [[c [reply|]]|]; [destruct Hsel| |];
    injection Hgen as <- _;
    eexists; eexists; (split; [exact H|]);
    cbn [normal_response ChatResponse.crisis_detected ChatResponse.sentiment
         ChatResponse.response];
    repeat split; apply fallback_response_nonempty.
Qed.

(** X18 on the scenario of a positive message with nothing configured. *)
Lemma chat_on_total_outage_witness :
  exists resp w',
    chat (production offline) "2024-05-01T10:00:00"
      (request_in "a" "I'm feeling great today!") empty_world = (Ok resp, w') /\
    label (ChatResponse.sentiment resp) = "positive" /\
    Some (ChatResponse.response resp) = Llm.responses !! "positive".
Proof.
  destruct (chat_on_total_outage offline "2024-05-01T10:00:00"
              (request_in "a" "I'm feeling great today!") empty_world)
    as (resp & w' & H & _ & Hs & Hr & _).
  - exact I.
  - exact I.
  - intros context. exact I.
  - vm_compute. reflexivity.
  - exists resp, w'. split; [exact H|]. rewrite Hr, Hs. split; vm_compute; reflexivity.
Defined.

End HandlerMore.

(** ** The helpers of the frontend against the backend *)

Section Frontend.
Import PyStr Re Safety Nlp Helpers.

(** X19. The frontend and the backend classify every score alike: the
    display is "Positive", "Negative" or "Neutral" exactly when the label
    that the backend gives to the same score is "positive", "negative" or
    "neutral". *)
Theorem frontend_label_agrees (s : float) :
  (fst (format_sentiment_score s) = "😊 Positive" <-> _score_to_label s = "positive") /\
  (fst (format_sentiment_score s) = "😔 Negative" <-> _score_to_label s = "negative") /\
  (fst (format_sentiment_score s) = "😐 Neutral" <-> _score_to_label s = "neutral").
Proof.
  unfold format_sentiment_score, _score_to_label.
  destruct (0.1 <? s)%float; [|destruct (s <? -0.1)%float];
    cbn [fst]; repeat split; intros H; try reflexivity; discriminate H.
Qed.

Lemma list_ascii_of_append (a b : string) :
  list_ascii_of_string (a +:+ b) = (list_ascii_of_string a ++ list_ascii_of_string b)%list.
Proof.
  induction a as [|x a IH]; [reflexivity|].
  rewrite append_cons. cbn [list_ascii_of_string app]. rewrite IH. reflexivity.
Qed.

(** A match right after [before] is found by the search. *)
Lemma search_from_at (r : regex) (before rest : list ascii) :
  rmatch r (last before) rest (fun _ _ => true) = true ->
  search_from r None (before ++ rest) = true.
Proof.
  intros H. apply rmatch_spec in H. destruct H as (prev' & s' & M & _).
  apply search_from_spec. exists before, rest, prev', s'. split; [reflexivity|].
  destruct (last before); exact M.
Qed.

Ltac pattern_number n :=
  match goal with
  | |- exists r, In r compiled_patterns /\ _ =>
      let r := eval vm_compute in (nth n compiled_patterns Eps) in
      exists r; split; [vm_compute; auto 10|]
  end.

(** Each keyword of the frontend, standing between two word boundaries, is
    matched by a pattern of the backend. *)
Lemma keyword_is_matched (prev : option ascii) (after : list ascii) (keyword : string) :
  isword_opt prev = false -> isword_opt (head after) = false ->
  In keyword get_crisis_keywords ->
  exists r, In r compiled_patterns /\
    rmatch r prev (list_ascii_of_string keyword ++ after) (fun _ _ => true) = true.
Proof.
  intros Hp Ha Hin. cbv [get_crisis_keywords In] in Hin.
  repeat (destruct Hin as [<-|Hin]); [..|destruct Hin];
    first
      [ pattern_number 0%nat; cbn; rewrite ?Hp, ?Ha, ?Nat.leb_refl; vm_compute; reflexivity
      | pattern_number 1%nat; cbn; rewrite ?Hp, ?Ha, ?Nat.leb_refl; vm_compute; reflexivity
      | pattern_number 2%nat; cbn; rewrite ?Hp, ?Ha, ?Nat.leb_refl; vm_compute; reflexivity
      | pattern_number 3%nat; cbn; rewrite ?Hp, ?Ha, ?Nat.leb_refl; vm_compute; reflexivity ].
Qed.

(** X20. On a message of ASCII characters the check of the frontend and
    the detector of the backend agree on the keywords of the frontend taken
    as whole words: when the lower-cased message contains one of the 11
    keywords with no letter, digit or underscore right before and right
    after it, the frontend check is true and the detector answers [True]. *)
Theorem client_keyword_is_flagged (message keyword before after : string) :
  is_ascii message = true ->
  In keyword get_crisis_keywords ->
  lower message = before +:+ keyword +:+ after ->
  isword_opt (last_char before) = false ->
  isword_opt (first_char after) = false ->
  contains_crisis_keywords message = true /\
  detect_crisis (PyStr message) = Ok true.
Proof.
  intros _ Hin Hm Hb Ha. split.
  - unfold contains_crisis_keywords. apply existsb_exists.
    exists keyword. split; [exact Hin|]. apply str_in_spec.
    exists before, after. exact Hm.
  - rewrite detect_crisis_str, <- detect_str_lower. f_equal.
    unfold detect_str. apply orb_true_iff. left. apply orb_true_iff. left.
    apply existsb_exists.
    destruct (keyword_is_matched (last_char before) (list_ascii_of_string after) keyword
                Hb Ha Hin) as (r & Hr & Hmatch).
    exists r. split; [exact Hr|].
    unfold search. rewrite Hm, !list_ascii_of_append.
    apply search_from_at. exact Hmatch.
Qed.

(** X20 on a message in capitals with punctuation around the keyword. *)
Lemma client_keyword_is_flagged_witness :
  contains_crisis_keywords "Sometimes I... WANT TO DIE." = true /\
  detect_crisis (PyStr "Sometimes I... WANT TO DIE.") = Ok true.
Proof.
  apply (client_keyword_is_flagged "Sometimes I... WANT TO DIE." "want to die"
           "sometimes i... " ".").
  - vm_compute. reflexivity.
  - vm_compute. auto 10.
  - vm_compute. reflexivity.
  - vm_compute. reflexivity.
  - vm_compute. reflexivity.
Defined.

(** Without the word boundaries the two checks differ: the frontend finds
    the keyword "suicide" inside "suicides", the backend does not. *)
Lemma client_check_is_looser :
  contains_crisis_keywords "suicides" = true /\
  detect_crisis (PyStr "suicides") = Ok false.
Proof. split; vm_compute; reflexivity. Qed.

End Frontend.

(** ** The window of a request and the context of its reply *)

Section Window.
Import PyStr Main.

(** X21. The first statements of the handler store, under the id of the
    request, the old history followed by the user message and cut to its
    last 6 entries: the stored window has from 1 to 6 entries, ends with the
    user message, and is the old history and the user message in their
    order less the oldest entries in excess of 6. No call is made. *)
Theorem user_message_is_recorded (now : string) (request : ChatRequest.t) (w : world) :
  let id := conversation_id_of request now in
  exists h w',
    record_user_message id now request w = (Ok h, w') /\
    window w' id = h /\
    calls w' = calls w /\
    (1 <= length h <= 6)%nat /\
    last h = Some (user_entry now request) /\
    exists dropped,
      (window w id ++ [user_entry now request])%list = (dropped ++ h)%list /\
      length dropped = (length (window w id) + 1 - 6)%nat.
Proof.
  cbv zeta. rewrite record_user_message_spec.
  exists (recorded w now request), (recorded_world w now request (calls w)).
  split; [reflexivity|]. split; [apply window_insert|]. split; [reflexivity|].
  split; [apply length_recorded|]. split.
  - rewrite recorded_snoc. apply last_snoc.
  - unfold recorded.
    destruct (last_n_suffix 6
                (window w (conversation_id_of request now) ++ [user_entry now request]))
      as (dropped & H & Hl).
    exists dropped. split; [exact H|]. rewrite Hl, length_app. reflexivity.
Qed.

(** X22. The reply generator is called on one context only: the last
    entries of the window of the request, at most 3, in their order and
    ending with the user message of the request. Replacing the generator by
    another one that behaves alike on this context does not change the
    outcome of the handler. *)
Theorem reply_context_is_the_recent_window (sv : services)
    (g : string -> list Msg.t -> SentimentResult -> IO string)
    (now : string) (request : ChatRequest.t) (w : world) :
  let context := last_n 3 (recorded w now request) in
  (forall s t, g (ChatRequest.message request) context s t =
               generate_response sv (ChatRequest.message request) context s t) ->
  chat (with_generate g sv) now request w = chat sv now request w /\
  (length context <= 3)%nat /\
  last context = Some (user_entry now request) /\
  exists older, recorded w now request = (older ++ context)%list.
Proof.
  cbv zeta. intros Hg. split; [|split; [|split]].
  - destruct (analyze sv (ChatRequest.message request) (calls w)) as [[s|err] t1] eqn:Ha.
    2:{ rewrite (chat_analyze_raises sv _ _ _ _ _ Ha).
        apply (chat_analyze_raises (with_generate g sv) _ _ _ _ _ Ha). }
    destruct (detect_crisis sv (PyStr (ChatRequest.message request)) t1)
      as [[[]|err] t2] eqn:Hd.
    + rewrite (chat_crisis_branch sv _ _ _ _ _ _ Ha Hd).
      apply (chat_crisis_branch (with_generate g sv) _ _ _ _ _ _ Ha Hd).
    + rewrite (chat_normal_branch sv _ _ _ _ _ _ Ha Hd).
      rewrite (chat_normal_branch (with_generate g sv) _ _ _ _ _ _ Ha Hd).
      cbn [with_generate generate_response logger_db]. rewrite Hg. reflexivity.
    + rewrite (chat_detect_raises sv _ _ _ _ _ _ _ Ha Hd).
      apply (chat_detect_raises (with_generate g sv) _ _ _ _ _ _ _ Ha Hd).
  - rewrite length_last_n. lia.
  - rewrite recorded_snoc, (last_n_snoc 2). apply last_snoc.
  - destruct (last_n_suffix 3 (recorded w now request)) as (older & H & _).
    exists older. exact H.
Qed.

(** X22 with a generator that answers on the context of the request only. *)
Lemma reply_context_is_the_recent_window_witness :
  chat (with_generate
          (fun message history s =>
             match history with
             | [_] => Llm.generate_response offline message history s
             | _ => raise TypeError
             end)
          (production offline)) "2024-05-01T10:00:00" (request_in "a" "Hello") empty_world =
  chat (production offline) "2024-05-01T10:00:00" (request_in "a" "Hello") empty_world.
Proof.
  apply (reply_context_is_the_recent_window (production offline)
           (fun message history s =>
              match history with
              | [_] => Llm.generate_response offline message history s
              | _ => raise TypeError
              end)
           "2024-05-01T10:00:00" (request_in "a" "Hello") empty_world).
  intros s t. reflexivity.
Defined.

End Window.
